(** * ValueLabel: the time-windowed sample buffer and its statistics

    A shallow embedding of [pyqtgraph/widgets/ValueLabel.py].

    Numbers.  Time stamps, values and errors are Python floats.  A finite
    double is written as the rational it denotes ([Q]); comparisons of
    doubles are exact and are the comparisons of [Q].  An arithmetic
    operation on doubles rounds its result: the four operations are the
    fields of the class [Arith], so that the program is the same for the
    exact operations ([exact]) and for the operations rounded to binary64
    ([binary64], where the examples of rounding are run).  A property
    that needs more of the arithmetic than its type assumes it as a law
    ([ArithLaws], [ToolkitLaws]); each law holds of IEEE-754 arithmetic
    on finite doubles.  Overflow to an infinity in a sum of values, and
    Python integers too large for a double, are outside the model.

    Libraries.  numpy's summation (whose order of additions is numpy's
    own), square root and decimal logarithm, the SI formatter and the
    template renderer are the fields of the class [Toolkit].

    The widget is a record of its attributes; every method is a
    computation in a small monad that threads the widget, may raise a
    Python exception and logs the calls whose occurrence matters
    ([self.update()], and the entries of [averageValue] and
    [averageError]).  The clock reading [time()] is an explicit argument
    of [setValue]. *)

From Stdlib Require Import List Sorted String Ascii Bool ZArith QArith Qminmax Qpower Qround Lia Lqa.
Import ListNotations.

Open Scope Q_scope.

(** ** Rational comparisons as booleans *)

Definition Qltb (x y : Q) : bool := negb (Qle_bool y x).

(** ** Double arithmetic

    [fadd], [fsub], [fmul] and [fdiv] are [+], [-], [*] and [/] on
    doubles: the exact result rounded to a double. *)
Class Arith : Type := {
  fadd : Q -> Q -> Q;
  fsub : Q -> Q -> Q;
  fmul : Q -> Q -> Q;
  fdiv : Q -> Q -> Q
}.

(** ** Python values, exceptions and built-ins *)

Module Py.

Inductive exn : Type :=
| TypeError
| ValueError
| ZeroDivisionError
| OverflowError
| KeyError
| IndexError.

Inductive result (A : Type) : Type :=
| Ok (a : A)
| Raise (e : exn).
Arguments Ok {A} a.
Arguments Raise {A} e.

(** [functools.reduce(f, xs)] without an initial value: a left fold
    seeded with the first element, [TypeError] on an empty sequence. *)
Definition reduce {A : Type} (f : A -> A -> A) (xs : list A) : result A :=
  match xs with
  | [] => Raise TypeError
  | x :: rest => Ok (fold_left f rest x)
  end.

(** [a / b] on Python floats: a zero divisor raises. *)
Definition truediv {A : Arith} (a b : Q) : result Q :=
  if Qeq_bool b 0 then Raise ZeroDivisionError else Ok (fdiv a b).

(** [float(len(xs))] *)
Definition float_len {A : Type} (xs : list A) : Q :=
  inject_Z (Z.of_nat (List.length xs)).

(** [xs[-1]] *)
Definition last_item {A : Type} (xs : list A) : result A :=
  match rev xs with
  | [] => Raise IndexError
  | x :: _ => Ok x
  end.

Definition space : ascii := " "%char.

Fixpoint lstrip (s : string) : string :=
  match s with
  | String c rest => if Ascii.eqb c space then lstrip rest else s
  | EmptyString => EmptyString
  end.

Fixpoint string_rev_onto (s acc : string) : string :=
  match s with
  | EmptyString => acc
  | String c rest => string_rev_onto rest (String c acc)
  end.

Definition string_rev (s : string) : string := string_rev_onto s EmptyString.

(** [s.strip(' ')] *)
Definition strip (s : string) : string :=
  string_rev (lstrip (string_rev (lstrip s))).

(** [s.replace(' ', new)] : every space character is replaced. *)
Fixpoint replace_space (new s : string) : string :=
  match s with
  | EmptyString => EmptyString
  | String c rest =>
      if Ascii.eqb c space then (new ++ replace_space new rest)%string
      else String c (replace_space new rest)
  end.

End Py.
Import Py.

(** ** Samples and the buffer *)

(** A sample is the tuple [(now, value, error)]. *)
Definition sample : Type := Q * Q * Q.

Definition item0 (v : sample) : Q := fst (fst v).
Definition item1 (v : sample) : Q := snd (fst v).
Definition item2 (v : sample) : Q := snd v.

(** The widget's attributes. [errorType_] and [error_] are the backing
    fields [_errorType] and [_error] of the two properties. *)
Record ValueLabel : Type := mkValueLabel {
  values : list sample;
  averageTime : Q;
  suffix : string;
  siPrefix : bool;
  errorType_ : string;
  error_ : bool;
  formatStr : string
}.

Definition with_values (vs : list sample) (w : ValueLabel) : ValueLabel :=
  mkValueLabel vs (averageTime w) (suffix w) (siPrefix w)
               (errorType_ w) (error_ w) (formatStr w).

Definition with_averageTime (t : Q) (w : ValueLabel) : ValueLabel :=
  mkValueLabel (values w) t (suffix w) (siPrefix w)
               (errorType_ w) (error_ w) (formatStr w).

Definition with_errorType (s : string) (w : ValueLabel) : ValueLabel :=
  mkValueLabel (values w) (averageTime w) (suffix w) (siPrefix w)
               s (error_ w) (formatStr w).

Definition with_error (b : bool) (w : ValueLabel) : ValueLabel :=
  mkValueLabel (values w) (averageTime w) (suffix w) (siPrefix w)
               (errorType_ w) b (formatStr w).

Definition with_formatStr (s : string) (w : ValueLabel) : ValueLabel :=
  mkValueLabel (values w) (averageTime w) (suffix w) (siPrefix w)
               (errorType_ w) (error_ w) s.

(** ** The method monad *)

Inductive event : Type :=
| EvUpdate          (* self.update() : a repaint is requested *)
| EvAverageValue    (* averageValue is entered *)
| EvAverageError.   (* averageError is entered *)

Definition M (A : Type) : Type :=
  ValueLabel -> result A * ValueLabel * list event.

Definition ret {A : Type} (a : A) : M A := fun w => (Ok a, w, []).

Definition bind {A B : Type} (m : M A) (k : A -> M B) : M B :=
  fun w =>
    match m w with
    | (Ok a, w1, t1) =>
        match k a w1 with
        | (r, w2, t2) => (r, w2, t1 ++ t2)
        end
    | (Raise e, w1, t1) => (Raise e, w1, t1)
    end.

Definition lift {A : Type} (r : result A) : M A := fun w => (r, w, []).
Definition emit (e : event) : M unit := fun w => (Ok tt, w, [e]).
Definition self {A : Type} (f : ValueLabel -> A) : M A := fun w => (Ok (f w), w, []).
Definition modify (f : ValueLabel -> ValueLabel) : M unit := fun w => (Ok tt, f w, []).

Notation "x <- m ;; k" := (bind m (fun x => k))
  (at level 61, m at next level, right associativity).
Notation "m ;; k" := (bind m (fun _ => k))
  (at level 61, right associativity).

Definition outcome {A : Type} (x : result A * ValueLabel * list event) : result A :=
  fst (fst x).
Definition widget {A : Type} (x : result A * ValueLabel * list event) : ValueLabel :=
  snd (fst x).
Definition trace {A : Type} (x : result A * ValueLabel * list event) : list event :=
  snd x.

(** [self.update()] *)
Definition update : M unit := emit EvUpdate.

(** ** setValue and the setters *)

(** The eviction loop of [setValue]:
    [while len(values) > 0 and values[0][0] < cutoff: values.pop(0)]. *)
Fixpoint evict (cutoff : Q) (vs : list sample) : list sample :=
  match vs with
  | [] => []
  | v :: rest => if Qltb (item0 v) cutoff then evict cutoff rest else vs
  end.

Definition setValue {A : Arith} (now value error : Q) : M unit :=
  modify (fun w => with_values (values w ++ [(now, value, error)]) w) ;;
  aT <- self averageTime ;;
  (if Qle_bool 0 aT
   then modify (fun w => with_values (evict (fsub now aT) (values w)) w)
   else ret tt) ;;
  update.

Definition setFormatStr (text : string) : M unit :=
  modify (with_formatStr text) ;;
  update.

Definition setAverageTime (t : Q) : M unit :=
  modify (with_averageTime t).

Definition setError (err : bool) : M unit :=
  modify (with_error err) ;;
  update.

Definition setErrorType (type : string) : M unit :=
  modify (with_errorType type).

(** [__init__]: [formatStr = None] selects one of the two default
    templates; assigning [self.error] goes through [setError]. *)
Definition default_error_format : string :=
  "{avgValue:.{precision}g} ± {avgError:.1g} {suffix}"%string.
Definition default_plain_format : string :=
  "{avgValue:0.2g} {suffix}"%string.

Definition blank : ValueLabel :=
  mkValueLabel [] 0 EmptyString false EmptyString false EmptyString.

Definition init (suffix0 : string) (siPrefix0 : bool) (averageTime0 : Q)
    (formatStr0 : option string) (error0 : bool) (errorType0 : string) : M unit :=
  modify (fun _ =>
    mkValueLabel [] averageTime0 suffix0 siPrefix0 EmptyString false EmptyString) ;;
  setErrorType errorType0 ;;
  setError error0 ;;
  modify (with_formatStr
    match formatStr0 with
    | Some f => f
    | None => if error0 then default_error_format else default_plain_format
    end).

(** The widget as constructed. *)
Definition new (suffix0 : string) (siPrefix0 : bool) (averageTime0 : Q)
    (formatStr0 : option string) (error0 : bool) (errorType0 : string) : ValueLabel :=
  widget (init suffix0 siPrefix0 averageTime0 formatStr0 error0 errorType0 blank).

(** A call of [setValue] is given by the clock reading it observed and
    its two arguments: the very sample it appends. *)
Abbreviation call := sample (only parsing).

(** The widget after a sequence of [setValue] calls. *)
Definition run {A : Arith} (w : ValueLabel) (calls : list call) : ValueLabel :=
  fold_left (fun w c => widget (setValue (item0 c) (item1 c) (item2 c) w)) calls w.

(** ** numpy scalars *)

(** A numpy float: a finite number or one of the IEEE special values. *)
Inductive npfloat : Type :=
| Finite (q : Q)
| PosInf
| NegInf
| NaN.

(** ** Collaborators

    Keyword arguments are passed as an association list, in the order of
    the call. *)

Inductive arg : Type :=
| ANum (q : Q)          (* a Python number *)
| ANp (x : npfloat)     (* a numpy scalar *)
| AInt (z : Z)
| AStr (s : string)
| ABool (b : bool).

Definition kwargs : Type := list (string * arg).

(** [np_sum xs] is [np.add.reduce] over a non-empty float64 array: the
    sum of the elements, each addition rounded, in the order numpy
    chooses.  [np_sqrt x] is [np.sqrt] of a non-negative double.
    [np_floor_log10 x] is [np.floor(np.log10(x))] of a positive double,
    an integer.  [siFormat] is [pg.siFormat] (defined elsewhere in the
    library) and [str_format] is [str.format]: pure functions to text
    that may raise. *)
Class Toolkit : Type := {
  np_sum : list Q -> Q;
  np_sqrt : Q -> Q;
  np_floor_log10 : Q -> Z;
  siFormat : Q -> kwargs -> result string;
  str_format : string -> kwargs -> result string
}.

(** ** numpy reductions *)

Module Np.

(** [x == 0] *)
Definition eq0 (x : npfloat) : bool :=
  match x with
  | Finite q => Qeq_bool q 0
  | _ => false
  end.

Definition opp (x : npfloat) : npfloat :=
  match x with
  | Finite q => Finite (- q)
  | PosInf => NegInf
  | NegInf => PosInf
  | NaN => NaN
  end.

(** [x + y] and [x - y], used on the results of [np.floor] only: small
    integers, whose sums and differences are exact in doubles. *)
Definition add (x y : npfloat) : npfloat :=
  match x, y with
  | NaN, _ | _, NaN => NaN
  | Finite a, Finite b => Finite (a + b)
  | PosInf, NegInf | NegInf, PosInf => NaN
  | PosInf, _ | _, PosInf => PosInf
  | NegInf, _ | _, NegInf => NegInf
  end.

Definition sub (x y : npfloat) : npfloat := add x (opp y).

(** Division of numpy floats never raises: a zero divisor gives an
    infinity or nan. *)
Definition div {A : Arith} (x y : npfloat) : npfloat :=
  match x, y with
  | NaN, _ | _, NaN => NaN
  | Finite a, Finite b =>
      if Qeq_bool b 0
      then (if Qeq_bool a 0 then NaN else if Qltb a 0 then NegInf else PosInf)
      else Finite (fdiv a b)
  | Finite _, _ => Finite 0
  | PosInf, Finite b => if Qltb b 0 then NegInf else PosInf
  | NegInf, Finite b => if Qltb b 0 then PosInf else NegInf
  | _, _ => NaN
  end.

(** [np.floor(np.log10(x))]: the logarithm of zero is minus infinity,
    that of a negative number is nan. *)
Definition floor_log10 {K : Toolkit} (x : npfloat) : npfloat :=
  match x with
  | Finite q =>
      if Qeq_bool q 0 then NegInf
      else if Qltb q 0 then NaN
      else Finite (inject_Z (np_floor_log10 q))
  | PosInf => PosInf
  | NegInf => NaN
  | NaN => NaN
  end.

(** Python's [int(x)] on a numpy float. *)
Definition to_int (x : npfloat) : result Z :=
  match x with
  | Finite q => Ok (Z.quot (Qnum q) (Zpos (Qden q)))
  | PosInf | NegInf => Raise OverflowError
  | NaN => Raise ValueError
  end.

(** [np.max(xs)]: the greatest element (no rounding); raises on an
    empty list. *)
Definition max (xs : list Q) : result npfloat :=
  match xs with
  | [] => Raise ValueError
  | x :: rest => Ok (Finite (fold_left Qmax rest x))
  end.

(** [np.mean(xs)]: the sum divided by the count; nan on an empty list. *)
Definition mean {A : Arith} {K : Toolkit} (xs : list Q) : npfloat :=
  match xs with
  | [] => NaN
  | _ => Finite (fdiv (np_sum xs) (float_len xs))
  end.

(** [np.sqrt(x)] *)
Definition sqrt {K : Toolkit} (x : Q) : npfloat :=
  if Qltb x 0 then NaN else Finite (np_sqrt x).

(** The variance as numpy computes it (ddof = 0): the mean, the
    deviations from it, their squares, and the mean of the squares. *)
Definition var {A : Arith} {K : Toolkit} (xs : list Q) : Q :=
  let arrmean := fdiv (np_sum xs) (float_len xs) in
  let x := map (fun v => fsub v arrmean) xs in
  let x := map (fun d => fmul d d) x in
  fdiv (np_sum x) (float_len xs).

(** [np.std(xs)]: the square root of [var]; nan on an empty list. *)
Definition std {A : Arith} {K : Toolkit} (xs : list Q) : npfloat :=
  match xs with
  | [] => NaN
  | _ => sqrt (var xs)
  end.

End Np.

(** ** The statistics and the rendered text *)

Definition averageValue {A : Arith} : M Q :=
  emit EvAverageValue ;;
  vs <- self values ;;
  total <- lift (reduce fadd (map item1 vs)) ;;
  lift (truediv total (float_len vs)).

Definition averageError {A : Arith} {K : Toolkit} : M npfloat :=
  emit EvAverageError ;;
  ty <- self errorType_ ;;
  vs <- self values ;;
  if String.eqb ty "max" then
    let err := map item2 vs in
    lift (Np.max err)
  else if String.eqb ty "stdDev" then
    let val := map item1 vs in
    ret (Np.std val)
  else if String.eqb ty "stdErr" then
    let val := map item1 vs in
    ret (Np.div (Np.std val) (Np.sqrt (float_len val)))
  else
    let err := map item2 vs in
    ret (Np.mean err).

(** The precision of the error branch, before [int(prec)]. *)
Definition prec_of {K : Toolkit} (avg : Q) (avg_err : npfloat) : npfloat :=
  if Qeq_bool avg 0 || Np.eq0 avg_err then Finite 2
  else Np.add (Np.sub (Np.floor_log10 (Finite avg)) (Np.floor_log10 avg_err))
              (Finite 1).

Definition generateText {A : Arith} {K : Toolkit} : M string :=
  vs <- self values ;;
  if (List.length vs =? 0)%nat then ret EmptyString
  else
    avg <- averageValue ;;
    last <- lift (last_item vs) ;;
    let val := item1 last in
    showError <- self error_ ;;
    if showError then
      avg_err <- averageError ;;
      let err := item2 last in
      si <- self siPrefix ;;
      if si then
        sfx <- self suffix ;;
        text <- lift (siFormat avg [("suffix", AStr sfx); ("error", ANp avg_err);
                                    ("groupedError", ABool true);
                                    ("precision", AInt 6); ("space", ABool false)]%string) ;;
        ret (replace_space "&nbsp;" text)
      else
        let prec := prec_of avg avg_err in
        fmt <- self formatStr ;;
        sfx <- self suffix ;;
        p <- lift (Np.to_int prec) ;;
        text <- lift (str_format fmt
                        [("value", ANum val); ("avgValue", ANum avg);
                         ("suffix", AStr sfx); ("error", ANum err);
                         ("avgError", ANp avg_err); ("precision", AInt p)]%string) ;;
        ret (strip text)
    else
      si <- self siPrefix ;;
      if si then
        sfx <- self suffix ;;
        lift (siFormat avg [("suffix", AStr sfx)]%string)
      else
        fmt <- self formatStr ;;
        sfx <- self suffix ;;
        text <- lift (str_format fmt
                        [("value", ANum val); ("avgValue", ANum avg);
                         ("suffix", AStr sfx)]%string) ;;
        ret (strip text).


(** [n] successive calls of [generateText], as [n] repaints make them:
    the texts returned and the widget left behind. *)
Fixpoint repaint {A : Arith} {K : Toolkit} (n : nat) (w : ValueLabel)
  : list (result string) * ValueLabel :=
  match n with
  | O => ([], w)
  | S k =>
      let r := generateText w in
      let rest := repaint k (widget r) in
      (outcome r :: fst rest, snd rest)
  end.

(** ** Painting

    [QLabel] keeps the text it displays; [setText] replaces it.  The
    painted label is the widget together with that text.  The base
    class's [paintEvent] draws and changes neither. *)
Record Painted : Type := mkPainted {
  label : ValueLabel;
  shown : string
}.

Definition paintEvent {A : Arith} {K : Toolkit} (l : Painted)
  : result unit * Painted * list event :=
  match generateText (label l) with
  | (Ok s, w, t) => (Ok tt, mkPainted w s, t)
  | (Raise e, w, t) => (Raise e, mkPainted w (shown l), t)
  end.

(** ** Specification vocabulary *)

(** Time stamps strictly increase along a list. *)
Fixpoint increasing (ts : list Q) : bool :=
  match ts with
  | a :: rest =>
      match rest with
      | b :: _ => Qltb a b && increasing rest
      | [] => true
      end
  | [] => true
  end.

(** The closed window [[lo, hi]] and the half-open window [(lo, hi]]. *)
Definition in_closed_window (lo hi : Q) (v : sample) : bool :=
  Qle_bool lo (item0 v) && Qle_bool (item0 v) hi.

Definition in_open_window (lo hi : Q) (v : sample) : bool :=
  Qltb lo (item0 v) && Qle_bool (item0 v) hi.

Definition below (cutoff : Q) (v : sample) : Prop := item0 v < cutoff.


(** The sum of a list, written as a right fold. *)
Fixpoint total (xs : list Q) : Q :=
  match xs with
  | [] => 0
  | x :: rest => x + total rest
  end.

Definition count (xs : list Q) : Q := inject_Z (Z.of_nat (List.length xs)).

Definition arithmetic_mean (xs : list Q) : Q := total xs / count xs.



(** The sum as [reduce] accumulates it: from the first element, left to
    right, each addition rounded. *)
Definition rounded_total {A : Arith} (xs : list Q) : Q :=
  match xs with
  | [] => 0
  | x :: rest => fold_left fadd rest x
  end.

(** No operation rounds, and no sum. *)
Definition exact_arithmetic (A : Arith) : Prop :=
  (forall a b, fadd a b == a + b) /\
  (forall a b, fsub a b == a - b) /\
  (forall a b, fmul a b == a * b) /\
  (forall a b, fdiv a b == a / b).




(** The buffer right after the append of [setValue], before eviction. *)
Definition appended (now value error : Q) (w : ValueLabel) : list sample :=
  values w ++ [(now, value, error)].

(** Order of samples in time. *)
Definition earlier (a b : sample) : Prop := item0 a < item0 b.

Definition ordered (vs : list sample) : Prop := StronglySorted earlier vs.

(** The sample is not older than the cutoff. *)
Definition not_before (cutoff : Q) (v : sample) : bool :=
  Qle_bool cutoff (item0 v).

(** Computations that leave the widget as it is. *)
Definition readonly {A : Type} (m : M A) : Prop :=
  forall w, widget (m w) = w.

(** Computations that neither read nor write [averageTime]. *)
Definition ignores_window {A : Type} (m : M A) : Prop :=
  forall t w,
    m (with_averageTime t w) =
    (outcome (m w), with_averageTime t (widget (m w)), trace (m w)).
(** ** More vocabulary *)

(** Time stamps never decrease along a list (equal stamps allowed). *)
Fixpoint nondecreasing (ts : list Q) : bool :=
  match ts with
  | a :: rest =>
      match rest with
      | b :: _ => Qle_bool a b && nondecreasing rest
      | [] => true
      end
  | [] => true
  end.

Definition not_later (a b : sample) : Prop := item0 a <= item0 b.

Definition in_time_order (vs : list sample) : Prop := StronglySorted not_later vs.

(** The value and the error of each sample, without the time stamps. *)
Definition readings (vs : list sample) : list (Q * Q) :=
  map (fun v => (item1 v, item2 v)) vs.

Definition first_char (s : string) : option ascii :=
  match s with
  | EmptyString => None
  | String c _ => Some c
  end.

Fixpoint last_char (s : string) : option ascii :=
  match s with
  | EmptyString => None
  | String c rest =>
      match last_char rest with
      | Some d => Some d
      | None => Some c
      end
  end.

Fixpoint has_space (s : string) : bool :=
  match s with
  | EmptyString => false
  | String c rest => Ascii.eqb c space || has_space rest
  end.

(** The fields bound to the template when no error is shown. *)
Definition plain_fields (val avg : Q) (sfx : string) : kwargs :=
  [("value", ANum val); ("avgValue", ANum avg); ("suffix", AStr sfx)]%string.

(** The keyword arguments of [pg.siFormat] when the error is shown. *)
Definition si_error_kwargs (sfx : string) (avg_err : npfloat) : kwargs :=
  [("suffix", AStr sfx); ("error", ANp avg_err); ("groupedError", ABool true);
   ("precision", AInt 6); ("space", ABool false)]%string.


(** The fields bound to the template when the error is shown, and the
    rendering of the template followed by [strip(' ')]. *)
Definition error_fields (val avg : Q) (sfx : string) (err : Q)
    (avg_err : npfloat) (p : Z) : kwargs :=
  [("value", ANum val); ("avgValue", ANum avg); ("suffix", AStr sfx);
   ("error", ANum err); ("avgError", ANp avg_err); ("precision", AInt p)]%string.

Definition render {K : Toolkit} (fmt : string) (fields : kwargs) : result string :=
  match str_format fmt fields with
  | Ok text => Ok (strip text)
  | Raise e => Raise e
  end.

(** ** Laws of the arithmetic and of the libraries

    Each law holds of IEEE-754 binary64 arithmetic, round to nearest, on
    finite doubles: rounding never decreases and leaves a double as it
    is, so a difference [x - t] with [t >= 0] rounds to at most [x], the
    rounded difference never decreases in [x], [x - 0] is [x] and
    [v / 1] is [v]. *)
Class ArithLaws (A : Arith) : Prop := {
  fsub_le : forall x t, 0 <= t -> fsub x t <= x;
  fsub_mono : forall a b t, a <= b -> fsub a t <= fsub b t;
  fsub_zero : forall x t, t == 0 -> fsub x t == x;
  fdiv_one : forall v, fdiv v 1 == v
}.

(** The sum of a single element is that element, and the floor of the
    decimal logarithm never decreases. *)
Class ToolkitLaws (K : Toolkit) : Prop := {
  np_sum_one : forall e, np_sum [e] == e;
  np_floor_log10_mono :
    forall x y, 0 < x -> x <= y -> (np_floor_log10 x <= np_floor_log10 y)%Z
}.

(** ** The exact arithmetic *)

Definition exact : Arith :=
  {| fadd := Qplus; fsub := Qminus; fmul := Qmult; fdiv := Qdiv |}.

(** ** The arithmetic of binary64 *)

Definition pow2 (e : Z) : Q :=
  if (0 <=? e)%Z then inject_Z (2 ^ e) else 1 # Z.to_pos (2 ^ (- e)).

(** The double nearest to [q], ties to the even mantissa: with
    [2^k <= |q| < 2^(k+1)] the last place is [2^(k-52)], and never below
    [2^(-1074)] (subnormal numbers). *)
Definition round64 (q : Q) : Q :=
  let n := Z.abs (Qnum q) in
  let d := Zpos (Qden q) in
  if (n =? 0)%Z then 0
  else
    let k0 := (Z.log2 n - Z.log2 d)%Z in
    let lower :=
      if (0 <=? k0)%Z then (n <? d * 2 ^ k0)%Z else (n * 2 ^ (- k0) <? d)%Z in
    let k := if lower then (k0 - 1)%Z else k0 in
    let e := Z.max (k - 52) (-1074) in
    let num := if (0 <=? e)%Z then n else (n * 2 ^ (- e))%Z in
    let den := if (0 <=? e)%Z then (d * 2 ^ e)%Z else d in
    let fl := (num / den)%Z in
    let r := (num mod den)%Z in
    let m :=
      match (2 * r ?= den)%Z with
      | Lt => fl
      | Gt => (fl + 1)%Z
      | Eq => if Z.even fl then fl else (fl + 1)%Z
      end in
    inject_Z (Z.sgn (Qnum q) * m) * pow2 e.

Definition binary64 : Arith :=
  {| fadd := fun a b => round64 (a + b);
     fsub := fun a b => round64 (a - b);
     fmul := fun a b => round64 (a * b);
     fdiv := fun a b => round64 (a / b) |}.

(** The double nearest to the square root of a double [q]: the integer
    square root of [q] scaled by [4^1100], made odd in its last place
    when it is not exact, so that it rounds as the root itself. *)
Definition sqrt64 (q : Q) : Q :=
  let n := Qnum q in
  let d := Zpos (Qden q) in
  if (n <=? 0)%Z then 0
  else
    let scaled := (n * d * 4 ^ 1100)%Z in
    let r := Z.sqrt scaled in
    let twice := if (r * r =? scaled)%Z then (2 * r)%Z else (2 * r + 1)%Z in
    round64 (twice # Z.to_pos (d * 2 ^ 1101)).

(** ** Concrete toolkits *)

(** The exact floor of the decimal logarithm of a positive rational. *)
Fixpoint ilog10_fuel (fuel : nat) (z : Z) : Z :=
  match fuel with
  | O => 0
  | S f => if (z <? 10)%Z then 0%Z else (1 + ilog10_fuel f (z / 10))%Z
  end.

Definition ilog10 (z : Z) : Z :=
  ilog10_fuel (Z.to_nat (Z.log2 z + 1)) z.

Definition exact_floor_log10 (q : Q) : Z :=
  let n := Qnum q in
  let d := Zpos (Qden q) in
  if (d <=? n)%Z then ilog10 (n / d)
  else (- (ilog10 ((d - 1) / n) + 1))%Z.

(** A square root rounded down to six decimals. *)
Definition sqrt6 (q : Q) : Q :=
  inject_Z (Z.sqrt (Qnum q * Zpos (Qden q) * 10 ^ 12))
  / inject_Z (Zpos (Qden q) * 10 ^ 6).

Definition show_arg (a : arg) : string :=
  match a with
  | AStr s => s
  | AInt 2 => "2"
  | AInt 6 => "6"
  | _ => "#"
  end.

Fixpoint show_kwargs (kw : kwargs) : string :=
  match kw with
  | [] => EmptyString
  | (k, a) :: rest => (k ++ "=" ++ show_arg a ++ " " ++ show_kwargs rest)%string
  end.

(** The toolkit of the exact arithmetic: exact sums, and renderers that
    show which fields they were given. *)
Definition demo : Toolkit :=
  {| np_sum := fun xs => fold_left Qplus xs 0;
     np_sqrt := sqrt6;
     np_floor_log10 := exact_floor_log10;
     siFormat := fun _ kw => Ok (show_kwargs kw);
     str_format := fun fmt kw => Ok (fmt ++ " " ++ show_kwargs kw)%string |}.

(** The toolkit of binary64, for short arrays: numpy adds fewer than
    eight elements in order, from 0.0, each addition rounded.  The floor
    of the logarithm is the exact one (the rounded logarithm of a double
    just below a power of ten can reach the power). *)
Definition rounded : Toolkit :=
  {| np_sum := fun xs => fold_left (fun a b => round64 (a + b)) xs 0;
     np_sqrt := sqrt64;
     np_floor_log10 := exact_floor_log10;
     siFormat := fun _ kw => Ok (show_kwargs kw);
     str_format := fun fmt kw => Ok (fmt ++ " " ++ show_kwargs kw)%string |}.

(** ** Widgets used in the examples *)

Definition out_of_order : ValueLabel :=
  mkValueLabel [(0, 1, 0); (10, 2, 0); (1, 3, 0)] 2 "V" false "avg" false
               default_plain_format.

Definition three_samples : ValueLabel :=
  mkValueLabel [(0, 1, 1 # 10); (1, 2, 5 # 10); (2, 3, 2 # 10)] (-1) "V" false
               "stdDev" true default_error_format.

Definition one_sample : ValueLabel :=
  mkValueLabel [(0, 5, 1 # 10)] 0 "V" false "stdDev" true default_error_format.

Definition negative_readings : ValueLabel :=
  mkValueLabel [(0, -5, 1 # 10); (1, -7, 3 # 10)] (-1) "V" false "avg" true
               default_error_format.

Definition si_widget : ValueLabel :=
  mkValueLabel [(0, 1, 1 # 10); (1, 2, 5 # 10)] 5 "V" true "max" true
               default_error_format.

Definition tied_stamps : ValueLabel :=
  mkValueLabel [(0, 1, 0); (3, 2, 0); (3, 3, 0)] 2 "V" false "avg" false
               default_plain_format.



(** The double nearest to one tenth, and three readings of it. *)
Definition tenth : Q := round64 (1 # 10).

Definition tenths : ValueLabel :=
  mkValueLabel [(0, tenth, tenth); (1, tenth, tenth); (2, tenth, tenth)] (-1)
               "V" false "avg" true default_error_format.

(** Two readings two seconds apart, 2^53 seconds after the epoch, under
    a window of a second and a half. *)
Definition late_calls : list call :=
  [(9007199254740992, 1, 0); (9007199254740994, 2, 0)].

(** * Properties *)

(** ** Boolean comparisons reflect the order *)

Lemma Qltb_lt (x y : Q) : Qltb x y = true <-> x < y.
Proof.
  unfold Qltb. rewrite negb_true_iff.
  split; intro H.
  - apply Qnot_le_lt. intro L. apply Qle_bool_iff in L. congruence.
  - destruct (Qle_bool y x) eqn:E; [|reflexivity].
    apply Qle_bool_iff in E. exfalso. apply (Qlt_not_le _ _ H E).
Qed.

Lemma Qltb_ge (x y : Q) : Qltb x y = false <-> y <= x.
Proof.
  unfold Qltb. rewrite negb_false_iff. apply Qle_bool_iff.
Qed.

Lemma Qle_bool_gt (x y : Q) : Qle_bool x y = false <-> y < x.
Proof.
  rewrite <- Qltb_lt. unfold Qltb.
  destruct (Qle_bool x y); simpl; intuition congruence.
Qed.

Ltac qbool :=
  repeat match goal with
  | H : Qltb _ _ = true |- _ => apply Qltb_lt in H
  | H : Qltb _ _ = false |- _ => apply Qltb_ge in H
  | H : Qle_bool _ _ = true |- _ => apply Qle_bool_iff in H
  | H : Qle_bool _ _ = false |- _ => apply Qle_bool_gt in H
  | |- Qltb _ _ = true => apply Qltb_lt
  | |- Qltb _ _ = false => apply Qltb_ge
  | |- Qle_bool _ _ = true => apply Qle_bool_iff
  | |- Qle_bool _ _ = false => apply Qle_bool_gt
  end.

(** ** The exact arithmetic is lawful *)

Lemma exact_laws : ArithLaws exact.
Proof.
  split; cbn [fsub fdiv exact]; intros.
  - lra.
  - lra.
  - lra.
  - field.
Qed.

Lemma exact_is_exact : exact_arithmetic exact.
Proof.
  unfold exact_arithmetic. cbn [fadd fsub fmul fdiv exact].
  repeat split; intros; reflexivity.
Qed.






(** ** What one call of setValue does *)

Lemma setValue_unfold {A : Arith} (now value error : Q) (w : ValueLabel) :
  setValue now value error w =
  (Ok tt,
   with_values (if Qle_bool 0 (averageTime w)
                then evict (fsub now (averageTime w)) (appended now value error w)
                else appended now value error w) w,
   [EvUpdate]).
Proof.
  unfold setValue, bind, modify, self, update, emit, ret, appended. simpl.
  destruct (Qle_bool 0 (averageTime w)); reflexivity.
Qed.

Lemma setValue_averageTime {A : Arith} (now value error : Q) (w : ValueLabel) :
  averageTime (widget (setValue now value error w)) = averageTime w.
Proof. rewrite setValue_unfold. reflexivity. Qed.

Lemma run_snoc {A : Arith} (w : ValueLabel) (calls : list call) (c : call) :
  run w (calls ++ [c]) =
  widget (setValue (item0 c) (item1 c) (item2 c) (run w calls)).
Proof. unfold run. rewrite fold_left_app. reflexivity. Qed.

Lemma run_averageTime {A : Arith} (calls : list call) (w : ValueLabel) :
  averageTime (run w calls) = averageTime w.
Proof.
  revert w. induction calls as [|c calls IH]; intro w; [reflexivity|].
  change (run w (c :: calls))
    with (run (widget (setValue (item0 c) (item1 c) (item2 c) w)) calls).
  rewrite IH. apply setValue_averageTime.
Qed.

Lemma call_eta (c : call) : (item0 c, item1 c, item2 c) = c.
Proof. destruct c as [[t v] e]. reflexivity. Qed.

(** ** The eviction loop *)

(** The loop splits the buffer into the prefix it pops and the rest. *)
Lemma evict_split (cutoff : Q) (vs : list sample) :
  exists gone, vs = gone ++ evict cutoff vs /\ Forall (below cutoff) gone.
Proof.
  induction vs as [|v rest IH].
  - exists []. split; [reflexivity | constructor].
  - simpl. destruct (Qltb (item0 v) cutoff) eqn:E.
    + destruct IH as [gone [Heq Hall]].
      exists (v :: gone). split.
      * simpl. congruence.
      * constructor; [qbool; exact E | exact Hall].
    + exists []. split; [reflexivity | constructor].
Qed.

(** The loop stops at a sample that is not below the cutoff. *)
Lemma evict_head (cutoff : Q) (vs : list sample) (v : sample) (rest : list sample) :
  evict cutoff vs = v :: rest -> ~ below cutoff v.
Proof.
  induction vs as [|u us IH]; simpl; [discriminate|].
  destruct (Qltb (item0 u) cutoff) eqn:E; [exact IH|].
  intros [= -> ->]. unfold below. qbool. lra.
Qed.

(** Popping stops at the first sample that is not below the cutoff,
    whatever follows it. *)
Lemma evict_stop (cutoff : Q) (gone : list sample) (v : sample) (rest : list sample) :
  Forall (below cutoff) gone -> ~ below cutoff v ->
  evict cutoff (gone ++ v :: rest) = v :: rest.
Proof.
  intros Hgone Hv. induction Hgone as [|u us Hu _ IH]; simpl.
  - destruct (Qltb (item0 v) cutoff) eqn:E; [|reflexivity].
    qbool. contradiction.
  - apply Qltb_lt in Hu. rewrite Hu. exact IH.
Qed.

Lemma evict_keeps_last (cutoff : Q) (vs : list sample) (v : sample) :
  ~ below cutoff v -> exists kept, evict cutoff (vs ++ [v]) = kept ++ [v].
Proof.
  intro Hv. induction vs as [|u us IH]; simpl.
  - destruct (Qltb (item0 v) cutoff) eqn:E.
    + qbool. contradiction.
    + exists []. reflexivity.
  - destruct (Qltb (item0 u) cutoff); [exact IH|].
    exists (u :: us). reflexivity.
Qed.

Lemma last_item_snoc {A : Type} (xs : list A) (x : A) :
  last_item (xs ++ [x]) = Ok x.
Proof. unfold last_item. rewrite rev_app_distr. reflexivity. Qed.

(** ** Buffers ordered in time *)

Lemma increasing_ordered (vs : list sample) :
  increasing (map item0 vs) = true -> ordered vs.
Proof.
  intro H. apply Sorted_StronglySorted.
  - intros a b c Hab Hbc. unfold earlier in *. lra.
  - induction vs as [|a rest IH]; [constructor|].
    simpl in H. destruct rest as [|b rest'].
    + constructor; constructor.
    + simpl in H. apply andb_prop in H. destruct H as [Hab Hrest].
      constructor.
      * apply IH. exact Hrest.
      * constructor. unfold earlier. qbool. exact Hab.
Qed.

Lemma ordered_app_l (xs ys : list sample) : ordered (xs ++ ys) -> ordered xs.
Proof.
  induction xs as [|x xs IH]; intro H; [constructor|].
  simpl in H. apply StronglySorted_inv in H. destruct H as [Hs Hall].
  constructor.
  - apply IH. exact Hs.
  - apply Forall_app in Hall. tauto.
Qed.

Lemma ordered_snoc (xs : list sample) (x : sample) :
  ordered (xs ++ [x]) -> Forall (fun y => earlier y x) xs.
Proof.
  induction xs as [|y ys IH]; intro H; [constructor|].
  simpl in H. apply StronglySorted_inv in H. destruct H as [Hs Hall].
  constructor.
  - apply Forall_app in Hall. destruct Hall as [_ Hx].
    inversion Hx; assumption.
  - apply IH. exact Hs.
Qed.

Lemma ordered_filter (f : sample -> bool) (vs : list sample) :
  ordered vs -> ordered (filter f vs).
Proof.
  induction 1 as [|v rest Hs IH Hall]; simpl; [constructor|].
  destruct (f v); [|exact IH].
  constructor; [exact IH|].
  rewrite Forall_forall in *. intros u Hu.
  apply filter_In in Hu. apply Hall. tauto.
Qed.

Lemma filter_all {A : Type} (f : A -> bool) (xs : list A) :
  Forall (fun x => f x = true) xs -> filter f xs = xs.
Proof.
  induction 1 as [|x xs Hx _ IH]; simpl; [reflexivity|].
  rewrite Hx, IH. reflexivity.
Qed.

Lemma filter_narrow {A : Type} (f g : A -> bool) (xs : list A) :
  (forall x, In x xs -> f x = true -> g x = true) ->
  filter f (filter g xs) = filter f xs.
Proof.
  induction xs as [|x xs IH]; intro H; simpl; [reflexivity|].
  assert (IH' : filter f (filter g xs) = filter f xs).
  { apply IH. intros y Hy. apply H. right. exact Hy. }
  destruct (g x) eqn:Eg; simpl.
  - rewrite IH'. reflexivity.
  - destruct (f x) eqn:Ef; [|exact IH'].
    rewrite (H x (or_introl eq_refl) Ef) in Eg. discriminate.
Qed.

(** On a buffer ordered in time the loop pops exactly the samples that
    are older than the cutoff. *)
Lemma evict_ordered (cutoff : Q) (vs : list sample) :
  ordered vs -> evict cutoff vs = filter (not_before cutoff) vs.
Proof.
  induction 1 as [|v rest Hs IH Hall]; simpl; [reflexivity|].
  unfold not_before at 1.
  destruct (Qltb (item0 v) cutoff) eqn:E.
  - assert (Qle_bool cutoff (item0 v) = false) as -> by (qbool; exact E).
    exact IH.
  - assert (Qle_bool cutoff (item0 v) = true) as -> by (qbool; exact E).
    f_equal. symmetry. apply filter_all.
    eapply Forall_impl; [|exact Hall].
    intros u Hu. unfold not_before, earlier in *. qbool. lra.
Qed.

Lemma run_window {A : Arith} {L : ArithLaws A} (w : ValueLabel) (pre : list call) :
  values w = [] -> 0 <= averageTime w ->
  forall c, ordered (pre ++ [c]) ->
  values (run w (pre ++ [c])) =
  filter (not_before (fsub (item0 c) (averageTime w))) (pre ++ [c]).
Proof.
  intros Hempty HT.
  induction pre as [|c' pre' IH] using rev_ind; intros c Hord.
  - pose proof (fsub_le (item0 c) (averageTime w) HT) as Hcut.
    simpl. rewrite setValue_unfold. simpl.
    assert (Qle_bool 0 (averageTime w) = true) as -> by (qbool; exact HT).
    unfold appended. rewrite Hempty, call_eta. simpl.
    assert (Qltb (item0 c) (fsub (item0 c) (averageTime w)) = false) as ->
      by (qbool; exact Hcut).
    unfold not_before.
    assert (Qle_bool (fsub (item0 c) (averageTime w)) (item0 c) = true) as ->
      by (qbool; exact Hcut).
    reflexivity.
  - rewrite run_snoc, setValue_unfold. simpl.
    rewrite run_averageTime.
    assert (Qle_bool 0 (averageTime w) = true) as -> by (qbool; exact HT).
    unfold appended. rewrite call_eta.
    rewrite (IH c' (ordered_app_l _ _ Hord)).
    pose proof (ordered_snoc _ _ Hord) as Hlt.
    apply Forall_app in Hlt. destruct Hlt as [_ Hlt].
    inversion Hlt as [|? ? Hc' _]; subst. unfold earlier in Hc'.
    pose proof (fsub_le (item0 c') (averageTime w) HT) as Hcut'.
    assert (Hmono : fsub (item0 c') (averageTime w) <= fsub (item0 c) (averageTime w))
      by (apply fsub_mono; lra).
    set (L0 := pre' ++ [c']).
    assert (Hin : filter (not_before (fsub (item0 c') (averageTime w))) L0 ++ [c]
                  = filter (not_before (fsub (item0 c') (averageTime w))) (L0 ++ [c])).
    { rewrite filter_app. f_equal. simpl. unfold not_before.
      assert (Qle_bool (fsub (item0 c') (averageTime w)) (item0 c) = true) as ->
        by (qbool; lra).
      reflexivity. }
    transitivity (evict (fsub (item0 c) (averageTime w))
                    (filter (not_before (fsub (item0 c') (averageTime w))) (L0 ++ [c])));
      [f_equal; exact Hin|].
    rewrite evict_ordered by (apply ordered_filter; exact Hord).
    apply filter_narrow.
    intros x _. unfold not_before. intro Hx. qbool. lra.
Qed.

Lemma new_values sfx si aT fmt err ety : values (new sfx si aT fmt err ety) = [].
Proof. reflexivity. Qed.

Lemma new_averageTime sfx si aT fmt err ety :
  averageTime (new sfx si aT fmt err ety) = aT.
Proof. reflexivity. Qed.

Lemma run_negative_window {A : Arith} (calls : list call) (w : ValueLabel) :
  averageTime w < 0 -> values (run w calls) = values w ++ calls.
Proof.
  revert w. induction calls as [|c calls IH]; intros w Hneg.
  - simpl. rewrite app_nil_r. reflexivity.
  - change (run w (c :: calls))
      with (run (widget (setValue (item0 c) (item1 c) (item2 c) w)) calls).
    rewrite IH by (rewrite setValue_averageTime; exact Hneg).
    rewrite setValue_unfold. simpl.
    assert (Qle_bool 0 (averageTime w) = false) as -> by (qbool; exact Hneg).
    unfold appended. rewrite call_eta, <- app_assoc. reflexivity.
Qed.

Ltac qcompare := unfold Qle, Qlt; simpl; lia.

(** ** The claims about the buffer *)

(** C1, as amended: with strictly increasing time stamps and a fixed
    window [T >= 0], after each call [c] of the sequence the buffer holds
    exactly the samples appended so far whose time stamp lies in the
    closed interval from the cutoff to [now], in insertion order.  [now]
    is the time stamp of [c] and the cutoff is [now - T] as the code
    computes it: the difference rounded to a double. *)
Theorem buffer_is_closed_window {A : Arith} {L : ArithLaws A}
    (sfx : string) (si : bool) (T : Q) (fmt : option string) (err : bool)
    (ety : string) (calls pre post : list call) (c : call) :
  0 <= T ->
  increasing (map item0 calls) = true ->
  calls = pre ++ c :: post ->
  values (run (new sfx si T fmt err ety) (pre ++ [c])) =
  filter (in_closed_window (fsub (item0 c) T) (item0 c)) (pre ++ [c]).
Proof.
  intros HT Hinc Hsplit.
  assert (Hord : ordered (pre ++ [c])).
  { apply increasing_ordered in Hinc. rewrite Hsplit in Hinc.
    apply ordered_app_l with (ys := post). rewrite <- app_assoc. exact Hinc. }
  rewrite run_window;
    [ | apply new_values | rewrite new_averageTime; exact HT | exact Hord ].
  rewrite new_averageTime.
  apply filter_ext_in. intros v Hv.
  unfold in_closed_window, not_before.
  assert (Hle : item0 v <= item0 c).
  { apply in_app_or in Hv. destruct Hv as [Hv | [<- | []]]; [|lra].
    pose proof (ordered_snoc _ _ Hord) as Hall.
    rewrite Forall_forall in Hall. specialize (Hall v Hv).
    unfold earlier in Hall. lra. }
  assert (Qle_bool (item0 v) (item0 c) = true) as -> by (qbool; exact Hle).
  rewrite andb_true_r. reflexivity.
Qed.

Lemma buffer_is_closed_window_witness :
  0 <= 2 /\
  increasing (map item0 [(0, 10, 0); (1, 20, 0); (3, 30, 0); (5, 40, 0)]) = true /\
  values (run (A := exact) (new "V" false 2 None false "avg")
              ([(0, 10, 0); (1, 20, 0)] ++ [(3, 30, 0)])) =
  filter (in_closed_window (fsub (Arith := exact) (item0 (3, 30, 0)) 2)
                           (item0 (3, 30, 0)))
         ([(0, 10, 0); (1, 20, 0)] ++ [(3, 30, 0)]).
Proof.
  split; [qcompare|]. split; [reflexivity|].
  apply (@buffer_is_closed_window exact exact_laws "V" false 2 None false "avg"
           [(0, 10, 0); (1, 20, 0); (3, 30, 0); (5, 40, 0)]
           [(0, 10, 0); (1, 20, 0)] [(5, 40, 0)] (3, 30, 0)).
  - qcompare.
  - reflexivity.
  - reflexivity.
Defined.

(** C1 as stated fails, in binary64 as in exact arithmetic: with [T = 1]
    and calls at times 0 and 1 the sample taken at time [0 = now - T] is
    still in the buffer after the second call, while the half-open
    interval [(now - T, now]] excludes it. *)
Lemma half_open_window_fails :
  0 <= 1 /\
  increasing (map item0 [(0, 10, 0); (1, 20, 0)]) = true /\
  values (run (A := binary64) (new "V" false 1 None false "avg")
              [(0, 10, 0); (1, 20, 0)])
    = [(0, 10, 0); (1, 20, 0)] /\
  filter (in_open_window (1 - 1) 1) [(0, 10, 0); (1, 20, 0)] = [(1, 20, 0)] /\
  values (run (A := binary64) (new "V" false 1 None false "avg")
              [(0, 10, 0); (1, 20, 0)])
    <> filter (in_open_window (1 - 1) 1) [(0, 10, 0); (1, 20, 0)].
Proof.
  split; [qcompare|]. repeat split; try reflexivity.
  vm_compute. discriminate.
Qed.

(** C5: with a negative [averageTime] nothing is evicted: after each
    call the buffer holds all the samples appended so far, so its length
    is the number of calls made. *)
Theorem negative_window_never_shrinks {A : Arith}
    (sfx : string) (si : bool) (T : Q) (fmt : option string) (err : bool)
    (ety : string) (calls : list call) (k : nat) :
  T < 0 ->
  (k <= List.length calls)%nat ->
  values (run (new sfx si T fmt err ety) (firstn k calls)) = firstn k calls /\
  List.length (values (run (new sfx si T fmt err ety) (firstn k calls))) = k.
Proof.
  intros HT Hk.
  rewrite run_negative_window by (rewrite new_averageTime; exact HT).
  rewrite new_values. simpl. split; [reflexivity|].
  rewrite length_firstn. lia.
Qed.

Lemma negative_window_never_shrinks_witness :
  -1 < 0 /\
  (2 <= List.length [(0, 10, 0); (100, 20, 0); (5000, 30, 0)])%nat /\
  List.length (values (run (A := binary64) (new "V" false (-1) None false "avg")
                 (firstn 2 [(0, 10, 0); (100, 20, 0); (5000, 30, 0)]))) = 2%nat.
Proof.
  split; [qcompare|]. split; [simpl; lia|].
  apply (@negative_window_never_shrinks binary64 "V" false (-1) None false "avg"
           [(0, 10, 0); (100, 20, 0); (5000, 30, 0)] 2).
  - qcompare.
  - simpl; lia.
Defined.

(** C9: after every [setValue(value, error)], whatever the window and
    the prior state, the call returns normally, the buffer is not empty
    and its last element is the sample just appended. *)
Theorem newest_sample_survives {A : Arith} {L : ArithLaws A}
    (w : ValueLabel) (now value error : Q) :
  outcome (setValue now value error w) = Ok tt /\
  values (widget (setValue now value error w)) <> [] /\
  last_item (values (widget (setValue now value error w))) = Ok (now, value, error).
Proof.
  rewrite setValue_unfold. unfold outcome, widget. simpl.
  assert (Hlast : exists kept,
            (if Qle_bool 0 (averageTime w)
             then evict (fsub now (averageTime w)) (appended now value error w)
             else appended now value error w) = kept ++ [(now, value, error)]).
  { destruct (Qle_bool 0 (averageTime w)) eqn:E.
    - apply evict_keeps_last. unfold below, item0. cbn [fst snd]. qbool.
      pose proof (fsub_le now (averageTime w) E). lra.
    - exists (values w). reflexivity. }
  destruct Hlast as [kept ->].
  split; [reflexivity|]. split.
  - destruct kept; discriminate.
  - apply last_item_snoc.
Qed.

Lemma newest_sample_survives_witness :
  last_item (values (widget (setValue (A := exact) 11 4 0 out_of_order)))
  = Ok (11, 4, 0).
Proof.
  apply (@newest_sample_survives exact exact_laws out_of_order 11 4 0).
Defined.

(** C10: eviction removes a contiguous prefix of the buffer and nothing
    else.  The popped prefix consists of samples below the cutoff (the
    difference [now - averageTime] as the code computes it); the loop
    stops at the first sample [v] that is not below the cutoff, and all
    that follows [v] is kept as it is, also a sample that is older than
    the cutoff (time stamps out of order). *)
Theorem eviction_pops_a_prefix {A : Arith} (w : ValueLabel) (now value error : Q) :
  let cutoff := fsub now (averageTime w) in
  let after := values (widget (setValue now value error w)) in
  (exists gone,
      appended now value error w = gone ++ after /\
      Forall (below cutoff) gone) /\
  (forall gone v rest,
      0 <= averageTime w ->
      appended now value error w = gone ++ v :: rest ->
      Forall (below cutoff) gone ->
      ~ below cutoff v ->
      after = v :: rest).
Proof.
  intros cutoff after. subst after. rewrite setValue_unfold. unfold widget. simpl.
  split.
  - destruct (Qle_bool 0 (averageTime w)).
    + apply evict_split.
    + exists []. split; [reflexivity | constructor].
  - intros gone v rest HT Happ Hgone Hv.
    assert (Qle_bool 0 (averageTime w) = true) as -> by (qbool; exact HT).
    rewrite Happ. apply evict_stop; assumption.
Qed.

Lemma eviction_pops_a_prefix_witness :
  below (fsub (Arith := binary64) 11 2) (1, 3, 0) /\
  values (widget (setValue (A := binary64) 11 4 0 out_of_order)) =
  [(10, 2, 0); (1, 3, 0); (11, 4, 0)].
Proof.
  split; [vm_compute; reflexivity|].
  apply (proj2 (@eviction_pops_a_prefix binary64 out_of_order 11 4 0)
               [(0, 1, 0)] (10, 2, 0) [(1, 3, 0); (11, 4, 0)]).
  - simpl. qcompare.
  - reflexivity.
  - constructor; [vm_compute; reflexivity | constructor].
  - intro Hb. vm_compute in Hb. discriminate Hb.
Defined.

(** ** Sums, means and maxima *)

Lemma fold_fadd_total {A : Arith} (xs : list Q) (x : Q) :
  (forall a b, fadd a b == a + b) ->
  fold_left fadd xs x == x + total xs.
Proof.
  intro Hadd. revert x. induction xs as [|a rest IH]; intro x; cbn [fold_left total].
  - ring.
  - rewrite IH, Hadd. ring.
Qed.

Lemma float_len_count {A : Type} (f : A -> Q) (xs : list A) :
  float_len (map f xs) = count (map f xs).
Proof. reflexivity. Qed.

Lemma float_len_map {A B : Type} (f : A -> B) (xs : list A) :
  float_len (map f xs) = float_len xs.
Proof. unfold float_len. rewrite length_map. reflexivity. Qed.

Lemma float_len_pos {A : Type} (xs : list A) : xs <> [] -> 0 < float_len xs.
Proof.
  destruct xs as [|x rest]; [congruence|]. intros _.
  unfold float_len, Qlt, inject_Z. cbn [Qnum Qden List.length]. lia.
Qed.

Lemma float_len_nonzero {A : Type} (xs : list A) :
  xs <> [] -> Qeq_bool (float_len xs) 0 = false.
Proof.
  intro H. apply float_len_pos in H.
  destruct (Qeq_bool (float_len xs) 0) eqn:E; [|reflexivity].
  apply Qeq_bool_eq in E. lra.
Qed.





(** ** The statistics *)

Lemma averageValue_unfold {A : Arith} (w : ValueLabel) :
  averageValue w =
  (match reduce fadd (map item1 (values w)) with
   | Ok s => truediv s (float_len (values w))
   | Raise e => Raise e
   end, w, [EvAverageValue]).
Proof.
  unfold averageValue, bind, emit, self, lift. simpl.
  destruct (reduce fadd (map item1 (values w))); reflexivity.
Qed.

Lemma reduce_rounded_total {A : Arith} (xs : list Q) :
  xs <> [] -> reduce fadd xs = Ok (rounded_total xs).
Proof.
  destruct xs as [|x rest]; [congruence|]. reflexivity.
Qed.

Lemma rounded_total_exact {A : Arith} (xs : list Q) :
  (forall a b, fadd a b == a + b) -> rounded_total xs == total xs.
Proof.
  intro Hadd. destruct xs as [|x rest]; [reflexivity|].
  cbn [rounded_total total]. apply fold_fadd_total. exact Hadd.
Qed.

(** C3, as amended: on a non-empty buffer [averageValue()] returns the
    sum of the retained values, accumulated from the first value on, left
    to right, each addition rounded to a double, divided by the sample
    count, the quotient rounded; it is the arithmetic mean when no
    operation rounds.  On an empty buffer it raises (the reduction of the
    empty list) and returns no value. *)
Theorem averageValue_is_rounded_mean {A : Arith} (w : ValueLabel) :
  (values w <> [] ->
   outcome (averageValue w) =
     Ok (fdiv (rounded_total (map item1 (values w)))
              (count (map item1 (values w))))) /\
  (values w = [] -> outcome (averageValue w) = Raise TypeError) /\
  (values w <> [] -> exact_arithmetic A ->
   exists q, outcome (averageValue w) = Ok q /\
             q == arithmetic_mean (map item1 (values w))).
Proof.
  assert (Hok : values w <> [] ->
                outcome (averageValue w) =
                Ok (fdiv (rounded_total (map item1 (values w)))
                         (count (map item1 (values w))))).
  { intro Hne. rewrite averageValue_unfold. unfold outcome. cbn [fst].
    rewrite reduce_rounded_total
      by (destruct (values w); [congruence | discriminate]).
    unfold truediv. rewrite (float_len_nonzero _ Hne).
    rewrite <- float_len_count, float_len_map. reflexivity. }
  split; [exact Hok|]. split.
  - intro Hempty. rewrite averageValue_unfold. unfold outcome. cbn [fst].
    rewrite Hempty. reflexivity.
  - intros Hne [Hadd [_ [_ Hdiv]]].
    eexists. split; [apply Hok; exact Hne|].
    rewrite Hdiv, (rounded_total_exact _ Hadd). reflexivity.
Qed.

Lemma averageValue_is_rounded_mean_witness :
  values three_samples <> [] /\
  exists q, outcome (averageValue (A := exact) three_samples) = Ok q /\ q == 2.
Proof.
  split; [discriminate|].
  destruct (proj2 (proj2 (@averageValue_is_rounded_mean exact three_samples))
              ltac:(discriminate) exact_is_exact) as [q [Hq Hmean]].
  exists q. split; [exact Hq|].
  rewrite Hmean. reflexivity.
Defined.

(** C3 as stated fails in binary64: three readings of one tenth (the
    double nearest to it) have that double as their arithmetic mean, and
    [averageValue()] returns the next double above it
    (0.10000000000000002). *)
Lemma rounded_average_is_not_the_mean :
  values tenths <> [] /\
  arithmetic_mean (map item1 (values tenths)) == tenth /\
  outcome (averageValue (A := binary64) tenths)
    = Ok (round64 (round64 (round64 (tenth + tenth) + tenth) / 3)) /\
  tenth < round64 (round64 (round64 (tenth + tenth) + tenth) / 3).
Proof.
  split; [discriminate|]. split; [vm_compute; reflexivity|].
  split; [reflexivity|]. vm_compute. reflexivity.
Qed.

Lemma averageError_unfold {A : Arith} {K : Toolkit} (w : ValueLabel) :
  averageError w =
  ((if String.eqb (errorType_ w) "max" then Np.max (map item2 (values w))
    else if String.eqb (errorType_ w) "stdDev"
         then Ok (Np.std (map item1 (values w)))
    else if String.eqb (errorType_ w) "stdErr"
         then Ok (Np.div (Np.std (map item1 (values w)))
                         (Np.sqrt (float_len (map item1 (values w)))))
    else Ok (Np.mean (map item2 (values w)))), w, [EvAverageError]).
Proof.
  unfold averageError, bind, emit, self, lift, ret. simpl.
  destruct (String.eqb (errorType_ w) "max").
  { destruct (Np.max (map item2 (values w))); reflexivity. }
  destruct (String.eqb (errorType_ w) "stdDev"); [reflexivity|].
  destruct (String.eqb (errorType_ w) "stdErr"); reflexivity.
Qed.







(** ** Rendering *)

Lemma readonly_ret {A : Type} (a : A) : readonly (ret a).
Proof. intro w. reflexivity. Qed.

Lemma readonly_lift {A : Type} (r : result A) : readonly (lift r).
Proof. intro w. reflexivity. Qed.

Lemma readonly_self {A : Type} (f : ValueLabel -> A) : readonly (self f).
Proof. intro w. reflexivity. Qed.

Lemma readonly_emit (e : event) : readonly (emit e).
Proof. intro w. reflexivity. Qed.

Lemma readonly_bind {A B : Type} (m : M A) (k : A -> M B) :
  readonly m -> (forall a, readonly (k a)) -> readonly (bind m k).
Proof.
  intros Hm Hk w. unfold bind.
  specialize (Hm w). unfold widget in *.
  destruct (m w) as [[[a|e] w1] t1]; simpl in Hm; subst w1; [|reflexivity].
  specialize (Hk a w).
  destruct (k a w) as [[r w2] t2]. exact Hk.
Qed.

Create HintDb readonly.
#[local] Hint Resolve readonly_ret readonly_lift readonly_self readonly_emit : readonly.

Ltac readonly_step :=
  match goal with
  | |- readonly (bind _ _) => apply readonly_bind; [|intro]
  | |- readonly (if ?b then _ else _) => destruct b
  | |- readonly (let _ := _ in _) => cbv zeta
  | |- readonly _ => solve [auto with readonly]
  end.

Lemma averageValue_readonly {A : Arith} : readonly averageValue.
Proof. unfold averageValue. repeat readonly_step. Qed.

Lemma averageError_readonly {A : Arith} {K : Toolkit} : readonly averageError.
Proof. unfold averageError. repeat readonly_step. Qed.

Lemma generateText_readonly {A : Arith} {K : Toolkit} : readonly generateText.
Proof.
  unfold generateText.
  repeat first [ apply averageValue_readonly
               | apply averageError_readonly
               | readonly_step ].
Qed.

Lemma generateText_empty {A : Arith} {K : Toolkit} (w : ValueLabel) :
  values w = [] -> generateText w = (Ok EmptyString, w, []).
Proof.
  intro Hempty. unfold generateText, bind, self. cbn [fst snd].
  rewrite Hempty. reflexivity.
Qed.

(** C4: on an empty buffer [generateText()] returns the empty string,
    whatever the configuration, and neither [averageValue] nor
    [averageError] is entered (the trace of calls is empty), so their
    failure on an empty buffer cannot occur while rendering. *)
Theorem generateText_empty_buffer {A : Arith} {K : Toolkit} (w : ValueLabel) :
  values w = [] ->
  outcome (generateText w) = Ok EmptyString /\
  ~ In EvAverageValue (trace (generateText w)) /\
  ~ In EvAverageError (trace (generateText w)) /\
  trace (generateText w) = [].
Proof.
  intro H0. rewrite (generateText_empty w H0).
  unfold outcome, trace. simpl. tauto.
Qed.

Lemma generateText_empty_buffer_witness :
  values (new "V" true 5 None true "stdErr") = [] /\
  outcome (generateText (A := binary64) (K := rounded)
             (new "V" true 5 None true "stdErr")) = Ok EmptyString /\
  trace (generateText (A := binary64) (K := rounded)
           (new "V" true 5 None true "stdErr")) = [].
Proof.
  split; [reflexivity|].
  pose proof (@generateText_empty_buffer binary64 rounded
                (new "V" true 5 None true "stdErr") eq_refl)
    as [Hout [_ [_ Htrace]]].
  split; [exact Hout | exact Htrace].
Defined.

(** C7: [generateText()] reads the widget and leaves it as it is, so any
    number of successive calls, with no setter in between, return the
    same text (or raise the same exception) each time. *)
Theorem generateText_repeatable {A : Arith} {K : Toolkit} (w : ValueLabel) (n : nat) :
  widget (generateText w) = w /\
  repaint n w = (repeat (outcome (generateText w)) n, w).
Proof.
  split; [apply generateText_readonly|].
  induction n as [|k IH]; [reflexivity|].
  cbn [repaint repeat]. rewrite generateText_readonly, IH. reflexivity.
Qed.

Lemma ignores_ret {A : Type} (a : A) : ignores_window (ret a).
Proof. intros t w. reflexivity. Qed.

Lemma ignores_lift {A : Type} (r : result A) : ignores_window (lift r).
Proof. intros t w. reflexivity. Qed.

Lemma ignores_emit (e : event) : ignores_window (emit e).
Proof. intros t w. reflexivity. Qed.

Lemma ignores_self {A : Type} (f : ValueLabel -> A) :
  (forall t w, f (with_averageTime t w) = f w) -> ignores_window (self f).
Proof. intros Hf t w. unfold self, outcome, widget, trace. simpl. rewrite Hf. reflexivity. Qed.

Lemma ignores_bind {A B : Type} (m : M A) (k : A -> M B) :
  ignores_window m -> (forall a, ignores_window (k a)) -> ignores_window (bind m k).
Proof.
  intros Hm Hk t w. unfold bind. rewrite Hm.
  unfold outcome, widget, trace.
  destruct (m w) as [[[a|e] w1] t1]; cbn [fst snd]; [|reflexivity].
  rewrite Hk. unfold outcome, widget, trace.
  destruct (k a w1) as [[r w2] t2]. reflexivity.
Qed.

Ltac ignores_step :=
  match goal with
  | |- ignores_window (bind _ _) => apply ignores_bind; [|intro]
  | |- ignores_window (if ?b then _ else _) => destruct b
  | |- ignores_window (let _ := _ in _) => cbv zeta
  | |- ignores_window (self _) => apply ignores_self; reflexivity
  | |- ignores_window (ret _) => apply ignores_ret
  | |- ignores_window (lift _) => apply ignores_lift
  | |- ignores_window (emit _) => apply ignores_emit
  end.

Lemma generateText_ignores_window {A : Arith} {K : Toolkit} : ignores_window generateText.
Proof.
  unfold generateText, averageValue, averageError.
  repeat ignores_step.
Qed.

(** C8: [setAverageTime(t)] assigns [averageTime] and does nothing else:
    the buffer and every other attribute are as before and no refresh is
    requested.  A repaint right after it renders the same text as before
    the call; the next [setValue] prunes with the new window. *)
Theorem setAverageTime_only_sets_the_window (w : ValueLabel) (t : Q) :
  let w' := widget (setAverageTime t w) in
  outcome (setAverageTime t w) = Ok tt /\
  trace (setAverageTime t w) = [] /\
  averageTime w' = t /\
  values w' = values w /\
  suffix w' = suffix w /\
  siPrefix w' = siPrefix w /\
  errorType_ w' = errorType_ w /\
  error_ w' = error_ w /\
  formatStr w' = formatStr w /\
  (forall (A : Arith) (K : Toolkit),
      outcome (generateText w') = outcome (generateText w)) /\
  (forall (A : Arith) now value error,
      values (widget (setValue now value error w')) =
      if Qle_bool 0 t
      then evict (fsub now t) (values w ++ [(now, value, error)])
      else values w ++ [(now, value, error)]).
Proof.
  cbv zeta. unfold setAverageTime, modify, outcome, trace, widget. cbn [fst snd].
  repeat split.
  - intros A K. rewrite generateText_ignores_window. reflexivity.
  - intros A now value error. rewrite setValue_unfold. reflexivity.
Qed.

(** ** The decimal exponent *)

Lemma ilog10_fuel_spec (fuel : nat) (z : Z) :
  (1 <= z < 10 ^ Z.of_nat fuel)%Z ->
  (0 <= ilog10_fuel fuel z /\
   10 ^ ilog10_fuel fuel z <= z < 10 ^ (ilog10_fuel fuel z + 1))%Z.
Proof.
  revert z. induction fuel as [|f IH]; intros z Hz.
  - simpl in Hz. lia.
  - cbn [ilog10_fuel]. destruct (z <? 10)%Z eqn:E.
    + apply Z.ltb_lt in E. simpl. lia.
    + apply Z.ltb_ge in E.
      rewrite Nat2Z.inj_succ, Z.pow_succ_r in Hz by lia.
      assert (Hq : (1 <= z / 10 < 10 ^ Z.of_nat f)%Z).
      { split.
        - apply Z.div_le_lower_bound; lia.
        - apply Z.div_lt_upper_bound; lia. }
      destruct (IH _ Hq) as [Hk [Hlo Hhi]].
      set (k := ilog10_fuel f (z / 10)) in *.
      replace (1 + k + 1)%Z with (Z.succ (k + 1)) by lia.
      replace (1 + k)%Z with (Z.succ k) by lia.
      rewrite !Z.pow_succ_r by lia.
      pose proof (Z.mul_div_le z 10 ltac:(lia)).
      pose proof (Z.mul_succ_div_gt z 10 ltac:(lia)).
      lia.
Qed.

Lemma ilog10_spec (z : Z) :
  (1 <= z)%Z ->
  (0 <= ilog10 z /\ 10 ^ ilog10 z <= z < 10 ^ (ilog10 z + 1))%Z.
Proof.
  intro Hz. apply ilog10_fuel_spec. split; [exact Hz|].
  rewrite Z2Nat.id by (pose proof (Z.log2_nonneg z); lia).
  destruct (Z.log2_spec z ltac:(lia)) as [_ Hlt].
  eapply Z.lt_le_trans; [exact Hlt|].
  replace (Z.succ (Z.log2 z)) with (Z.log2 z + 1)%Z by lia.
  apply Z.pow_le_mono_l. lia.
Qed.

Lemma ten_pow (k : Z) : (0 <= k)%Z -> 10 ^ k == inject_Z (10 ^ k).
Proof. intro H. rewrite Zpower_Qpower by exact H. reflexivity. Qed.

Lemma exact_floor_log10_spec (q : Q) :
  0 < q ->
  10 ^ exact_floor_log10 q <= q /\ q < 10 ^ (exact_floor_log10 q + 1).
Proof.
  destruct q as [n d]. intro Hq.
  assert (Hn : (0 < n)%Z) by (unfold Qlt in Hq; simpl in Hq; lia).
  unfold exact_floor_log10. cbn [Qnum Qden].
  destruct (Z.pos d <=? n)%Z eqn:E.
  - apply Z.leb_le in E.
    assert (Hm : (1 <= n / Z.pos d)%Z) by (apply Z.div_le_lower_bound; lia).
    destruct (ilog10_spec _ Hm) as [Hk [Hlo Hhi]].
    set (k := ilog10 (n / Z.pos d)) in *.
    rewrite !ten_pow by lia.
    pose proof (Z.mul_div_le n (Z.pos d) ltac:(lia)).
    pose proof (Z.mul_succ_div_gt n (Z.pos d) ltac:(lia)).
    unfold Qle, Qlt, inject_Z. cbn [Qnum Qden].
    split; nia.
  - apply Z.leb_gt in E.
    assert (Hm : (1 <= (Z.pos d - 1) / n)%Z) by (apply Z.div_le_lower_bound; lia).
    destruct (ilog10_spec _ Hm) as [Hk [Hlo Hhi]].
    set (j := ilog10 ((Z.pos d - 1) / n)) in *.
    replace (- (j + 1) + 1)%Z with (- j)%Z by lia.
    rewrite !Qpower_opp, !ten_pow by lia.
    pose proof (Z.mul_div_le (Z.pos d - 1) n ltac:(lia)).
    pose proof (Z.mul_succ_div_gt (Z.pos d - 1) n ltac:(lia)).
    assert (P1 : (0 < 10 ^ j)%Z) by (apply Z.pow_pos_nonneg; lia).
    assert (P2 : (0 < 10 ^ (j + 1))%Z) by (apply Z.pow_pos_nonneg; lia).
    split.
    + apply Qle_shift_inv_r.
      * unfold Qlt, inject_Z; cbn [Qnum Qden]. lia.
      * unfold Qle, Qmult, inject_Z. cbn [Qnum Qden]. nia.
    + apply Qlt_shift_inv_l.
      * unfold Qlt, inject_Z; cbn [Qnum Qden]. lia.
      * unfold Qlt, Qmult, inject_Z. cbn [Qnum Qden]. nia.
Qed.



Lemma demo_laws : ToolkitLaws demo.
Proof.
  split.
  - intro e. cbn [np_sum demo fold_left]. ring.
  - intros x y Hx Hxy. cbn [np_floor_log10 demo].
    destruct (exact_floor_log10_spec x Hx) as [Hlo _].
    destruct (exact_floor_log10_spec y ltac:(lra)) as [_ Hhi].
    assert (Hten : 1 <= 10) by (unfold Qle; simpl; lia).
    destruct (Z_le_gt_dec (exact_floor_log10 x) (exact_floor_log10 y))
      as [Hle | Hgt]; [exact Hle|].
    pose proof (Qpower_le_compat_l 10 (exact_floor_log10 y + 1)
                  (exact_floor_log10 x) ltac:(lia) Hten).
    lra.
Qed.

Lemma nonzero_test (q : Q) : ~ q == 0 -> Qeq_bool q 0 = false.
Proof.
  intro Hq. destruct (Qeq_bool q 0) eqn:E; [|reflexivity].
  apply Qeq_bool_eq in E. contradiction.
Qed.

Lemma floor_log10_positive {K : Toolkit} (q : Q) :
  0 < q -> Np.floor_log10 (Finite q) = Finite (inject_Z (np_floor_log10 q)).
Proof.
  intro Hq. unfold Np.floor_log10.
  rewrite nonzero_test by lra.
  assert (Qltb q 0 = false) as -> by (qbool; lra).
  reflexivity.
Qed.



Lemma to_int_exponents (a b : Z) :
  Np.to_int (Np.add (Np.sub (Finite (inject_Z a)) (Finite (inject_Z b))) (Finite 1))
  = Ok (a - b + 1)%Z.
Proof.
  unfold Np.to_int, Np.sub, Np.opp, inject_Z. cbn [Np.add].
  unfold Qplus, Qopp. cbn [Qnum Qden Pos.mul].
  rewrite Z.quot_1_r. f_equal. lia.
Qed.

(** The text of the error branch without SI prefix. *)
Lemma generateText_error_template {A : Arith} {K : Toolkit} (w : ValueLabel)
    (last : sample) (avg : Q) (avg_err : npfloat) :
  last_item (values w) = Ok last ->
  outcome (averageValue w) = Ok avg ->
  outcome (averageError w) = Ok avg_err ->
  error_ w = true ->
  siPrefix w = false ->
  outcome (generateText w) =
  match Np.to_int (prec_of avg avg_err) with
  | Ok p => render (formatStr w)
              (error_fields (item1 last) avg (suffix w) (item2 last) avg_err p)
  | Raise e => Raise e
  end.
Proof.
  intros Hlast Havg Herr Hshow Hsi.
  assert (Hlen : (List.length (values w) =? 0)%nat = false).
  { destruct (values w); [discriminate Hlast | reflexivity]. }
  rewrite averageValue_unfold in Havg. rewrite averageError_unfold in Herr.
  unfold outcome in Havg, Herr. cbn [fst] in Havg, Herr.
  unfold generateText, bind, self, lift, ret. cbn [fst snd].
  rewrite Hlen, averageValue_unfold, Havg, Hlast, Hshow.
  rewrite averageError_unfold, Herr, Hsi.
  unfold outcome, render, error_fields. cbn [fst snd].
  destruct (Np.to_int (prec_of avg avg_err)) as [p|e]; [|reflexivity].
  destruct (str_format (formatStr w) _) as [text|e]; reflexivity.
Qed.





(** ** Examples *)

Example strip_spaces : strip "  3.1 V " = "3.1 V"%string.
Proof. reflexivity. Qed.

Example strip_no_suffix : strip "3.1 " = "3.1"%string.
Proof. reflexivity. Qed.

Example replace_spaces : replace_space "&nbsp;" "1.5 mV" = "1.5&nbsp;mV"%string.
Proof. reflexivity. Qed.

Example exponents :
  map exact_floor_log10 [314 # 100; 1000 # 1; 999 # 1; 1 # 10; 5 # 1000; 99 # 1000]
  = [0; 3; 2; -1; -3; -2]%Z.
Proof. reflexivity. Qed.

Example log_of_zero_and_negative :
  Np.floor_log10 (K := demo) (Finite 0) = NegInf /\
  Np.floor_log10 (K := demo) (Finite (-3)) = NaN.
Proof. split; reflexivity. Qed.

Example max_of_errors :
  outcome (averageError (A := exact) (K := demo)
             (with_errorType "max" three_samples)) = Ok (Finite (5 # 10)).
Proof. reflexivity. Qed.

Example window_of_two :
  values (run (A := binary64) (new "V" false 2 None false "avg")
              [(0, 10, 0); (1, 20, 0); (3, 30, 0); (5, 40, 0)])
  = [(3, 30, 0); (5, 40, 0)].
Proof. vm_compute. reflexivity. Qed.

Example zero_window_keeps_newest :
  values (run (A := binary64) (new "V" false 0 None false "avg")
              [(0, 10, 0); (1, 20, 0)])
  = [(1, 20, 0)].
Proof. vm_compute. reflexivity. Qed.

Example empty_average_fails :
  outcome (averageValue (A := binary64) (new "V" false 0 None false "avg"))
  = Raise TypeError.
Proof. reflexivity. Qed.

Example plain_text_fields :
  outcome (generateText (A := exact) (K := demo) (with_error false three_samples)) =
  Ok ("{avgValue:.{precision}g} ± {avgError:.1g} {suffix} value=# avgValue=# suffix=V"%string).
Proof. reflexivity. Qed.

(** 0.1 + 0.2 is 0.30000000000000004 in binary64. *)
Example tenth_plus_fifth :
  round64 (round64 (1 # 10) + round64 (2 # 10))
  == 5404319552844596 # 18014398509481984.
Proof. vm_compute. reflexivity. Qed.

Example doubles_round_to_themselves :
  map round64 [0; 1; -5; 3 # 8; tenth; 9007199254740992]
  = map (fun q => round64 (round64 q)) [0; 1; -5; 3 # 8; tenth; 9007199254740992].
Proof. vm_compute. reflexivity. Qed.

(** 2^53 + 1 is no double: it rounds to the even neighbour. *)
Example ties_round_to_even :
  round64 9007199254740993 == 9007199254740992 /\
  round64 9007199254740995 == 9007199254740996.
Proof. split; vm_compute; reflexivity. Qed.

(** The square root of two, to the nearest double. *)
Example root_of_two : sqrt64 2 == 6369051672525773 # 4503599627370496.
Proof. vm_compute. reflexivity. Qed.

(** Two seconds apart under a window of a second and a half: the cutoff
    2^53 + 2 - 1.5 rounds down to 2^53 and the first sample stays. *)
Example late_window_keeps_both :
  values (run (A := binary64) (new "V" false (3 # 2) None false "avg") late_calls)
  = late_calls.
Proof. vm_compute. reflexivity. Qed.

Example exact_window_drops_one :
  values (run (A := exact) (new "V" false (3 # 2) None false "avg") late_calls)
  = [(9007199254740994, 2, 0)].
Proof. vm_compute. reflexivity. Qed.

(** * Further properties of the widget *)

(** ** The buffer under arbitrary calls *)

Lemma setValue_suffix {A : Arith} (w : ValueLabel) (now value error : Q) :
  exists gone,
    values w ++ [(now, value, error)] =
    gone ++ values (widget (setValue now value error w)).
Proof.
  rewrite setValue_unfold. unfold widget. cbn [fst snd values with_values].
  destruct (Qle_bool 0 (averageTime w)).
  - destruct (evict_split (fsub now (averageTime w)) (appended now value error w))
      as [gone [Heq _]].
    exists gone. exact Heq.
  - exists []. reflexivity.
Qed.

(** X1: whatever the window and the time stamps, the buffer after a
    sequence of [setValue] calls is a suffix of the history (the buffer
    before, followed by the samples appended): samples are only removed
    from the front, never reordered, altered or invented. *)
Theorem buffer_is_suffix_of_history {A : Arith} (calls : list call) (w : ValueLabel) :
  exists gone, values w ++ calls = gone ++ values (run w calls).
Proof.
  revert w. induction calls as [|c calls IH]; intro w.
  - exists []. rewrite app_nil_r. reflexivity.
  - change (run w (c :: calls))
      with (run (widget (setValue (item0 c) (item1 c) (item2 c) w)) calls).
    destruct (IH (widget (setValue (item0 c) (item1 c) (item2 c) w)))
      as [gone2 H2].
    destruct (setValue_suffix w (item0 c) (item1 c) (item2 c)) as [gone1 H1].
    rewrite call_eta in H1.
    exists (gone1 ++ gone2).
    transitivity ((values w ++ [c]) ++ calls);
      [rewrite <- app_assoc; reflexivity|].
    rewrite <- (app_assoc gone1 gone2), <- H2, (app_assoc gone1).
    f_equal. exact H1.
Qed.

(** X2: [setValue] never raises, requests exactly one refresh, leaves
    every configuration attribute as it is, and leaves a buffer of at
    least one and at most one more sample than before. *)
Theorem setValue_effects {A : Arith} {L : ArithLaws A}
    (w : ValueLabel) (now value error : Q) :
  let r := setValue now value error w in
  outcome r = Ok tt /\
  trace r = [EvUpdate] /\
  averageTime (widget r) = averageTime w /\
  suffix (widget r) = suffix w /\
  siPrefix (widget r) = siPrefix w /\
  errorType_ (widget r) = errorType_ w /\
  error_ (widget r) = error_ w /\
  formatStr (widget r) = formatStr w /\
  (1 <= List.length (values (widget r)) <= List.length (values w) + 1)%nat.
Proof.
  cbv zeta.
  assert (Hlen : (1 <= List.length (values (widget (setValue now value error w)))
                  <= List.length (values w) + 1)%nat).
  { destruct (setValue_suffix w now value error) as [gone Hsuf].
    apply (f_equal (@List.length sample)) in Hsuf.
    rewrite !length_app in Hsuf. cbn [List.length] in Hsuf.
    split; [|lia].
    rewrite setValue_unfold. unfold widget. cbn [fst snd values with_values].
    destruct (Qle_bool 0 (averageTime w)) eqn:E.
    - destruct (evict_keeps_last (fsub now (averageTime w)) (values w)
                  (now, value, error)) as [kept Hk].
      + unfold below, item0. cbn [fst snd]. qbool.
        pose proof (fsub_le now (averageTime w) E). lra.
      + assert (Hk' : evict (fsub now (averageTime w)) (appended now value error w)
                      = kept ++ [(now, value, error)]) by exact Hk.
        rewrite Hk', length_app. cbn [List.length]. lia.
    - unfold appended. rewrite length_app. cbn [List.length]. lia. }
  rewrite setValue_unfold in *. unfold outcome, trace, widget in *.
  cbn [fst snd] in *. repeat split; try reflexivity; apply Hlen.
Qed.

Lemma setValue_effects_witness :
  trace (setValue (A := exact) 11 4 0 out_of_order) = [EvUpdate] /\
  (1 <= List.length (values (widget (setValue (A := exact) 11 4 0 out_of_order)))
   <= List.length (values out_of_order) + 1)%nat.
Proof.
  pose proof (@setValue_effects exact exact_laws out_of_order 11 4 0)
    as [_ [Htrace [_ [_ [_ [_ [_ [_ Hlen]]]]]]]].
  split; [exact Htrace | exact Hlen].
Defined.

(** X3: with a window [averageTime >= 0], the oldest sample left in the
    buffer by [setValue] is not older than the cutoff, the difference
    [now - averageTime] as the code computes it, whatever the order of
    the time stamps. *)
Theorem oldest_retained_within_window {A : Arith} (w : ValueLabel)
    (now value error : Q) (first : sample) (rest : list sample) :
  0 <= averageTime w ->
  values (widget (setValue now value error w)) = first :: rest ->
  fsub now (averageTime w) <= item0 first.
Proof.
  intros HT Hbuf. rewrite setValue_unfold in Hbuf.
  unfold widget in Hbuf. cbn [fst snd values with_values] in Hbuf.
  assert (Qle_bool 0 (averageTime w) = true) as E by (qbool; exact HT).
  rewrite E in Hbuf.
  apply evict_head in Hbuf. unfold below in Hbuf. lra.
Qed.

Lemma oldest_retained_within_window_witness :
  0 <= averageTime out_of_order /\
  fsub (Arith := binary64) 11 (averageTime out_of_order) <= item0 (10, 2, 0).
Proof.
  split; [simpl; qcompare|].
  apply (@oldest_retained_within_window binary64 out_of_order 11 4 0 (10, 2, 0)
           [(1, 3, 0); (11, 4, 0)]).
  - simpl. qcompare.
  - vm_compute. reflexivity.
Defined.

Lemma nondecreasing_in_time_order (vs : list sample) :
  nondecreasing (map item0 vs) = true -> in_time_order vs.
Proof.
  intro H. apply Sorted_StronglySorted.
  - intros a b c Hab Hbc. unfold not_later in *. lra.
  - induction vs as [|a rest IH]; [constructor|].
    destruct rest as [|b rest'].
    + constructor; constructor.
    + change (nondecreasing (map item0 (a :: b :: rest')))
        with (Qle_bool (item0 a) (item0 b)
              && nondecreasing (map item0 (b :: rest'))) in H.
      apply andb_prop in H. destruct H as [Hab Hrest].
      constructor.
      * apply IH. exact Hrest.
      * constructor. unfold not_later. qbool. exact Hab.
Qed.

Lemma in_time_order_nondecreasing (vs : list sample) :
  in_time_order vs -> nondecreasing (map item0 vs) = true.
Proof.
  induction 1 as [|a rest Hs IH Hall]; [reflexivity|].
  destruct rest as [|b rest']; [reflexivity|].
  change (nondecreasing (map item0 (a :: b :: rest')))
    with (Qle_bool (item0 a) (item0 b) && nondecreasing (map item0 (b :: rest'))).
  rewrite IH, andb_true_r.
  inversion Hall as [|? ? Hab _]; subst. unfold not_later in Hab.
  qbool. exact Hab.
Qed.

Lemma in_time_order_filter (f : sample -> bool) (vs : list sample) :
  in_time_order vs -> in_time_order (filter f vs).
Proof.
  induction 1 as [|v rest Hs IH Hall]; simpl; [constructor|].
  destruct (f v); [|exact IH].
  constructor; [exact IH|].
  rewrite Forall_forall in *. intros u Hu.
  apply filter_In in Hu. apply Hall. tauto.
Qed.

Lemma in_time_order_snoc (xs : list sample) (x : sample) :
  in_time_order (xs ++ [x]) -> Forall (fun y => not_later y x) xs.
Proof.
  induction xs as [|y ys IH]; intro H; [constructor|].
  simpl in H. apply StronglySorted_inv in H. destruct H as [Hs Hall].
  constructor.
  - apply Forall_app in Hall. destruct Hall as [_ Hx].
    inversion Hx; assumption.
  - apply IH. exact Hs.
Qed.

Lemma evict_in_time_order (cutoff : Q) (vs : list sample) :
  in_time_order vs -> evict cutoff vs = filter (not_before cutoff) vs.
Proof.
  induction 1 as [|v rest Hs IH Hall]; simpl; [reflexivity|].
  unfold not_before at 1.
  destruct (Qltb (item0 v) cutoff) eqn:E.
  - assert (Qle_bool cutoff (item0 v) = false) as -> by (qbool; exact E).
    exact IH.
  - assert (Qle_bool cutoff (item0 v) = true) as -> by (qbool; exact E).
    f_equal. symmetry. apply filter_all.
    eapply Forall_impl; [|exact Hall].
    intros u Hu. unfold not_before, not_later in *. qbool. lra.
Qed.

(** X4: one call of [setValue] on a buffer whose time stamps never
    decrease (equal stamps allowed, whatever window pruned it before):
    with [averageTime >= 0] the buffer afterwards holds exactly the
    samples, old and new, whose stamp lies between the cutoff (the
    difference [now - averageTime] as the code computes it) and [now],
    both included, in their order, and its stamps still never decrease. *)
Theorem setValue_prunes_to_window {A : Arith} (w : ValueLabel)
    (now value error : Q) :
  0 <= averageTime w ->
  nondecreasing (map item0 (appended now value error w)) = true ->
  values (widget (setValue now value error w)) =
    filter (in_closed_window (fsub now (averageTime w)) now)
           (appended now value error w) /\
  nondecreasing (map item0 (values (widget (setValue now value error w)))) = true.
Proof.
  intros HT Hord. apply nondecreasing_in_time_order in Hord.
  assert (Hbuf : values (widget (setValue now value error w)) =
                 filter (not_before (fsub now (averageTime w)))
                        (appended now value error w)).
  { rewrite setValue_unfold. unfold widget. cbn [fst snd values with_values].
    assert (Qle_bool 0 (averageTime w) = true) as -> by (qbool; exact HT).
    apply evict_in_time_order. exact Hord. }
  split.
  - rewrite Hbuf. apply filter_ext_in. intros v Hv.
    unfold in_closed_window, not_before.
    assert (Hle : item0 v <= now).
    { unfold appended in Hv, Hord.
      apply in_app_or in Hv. destruct Hv as [Hv | [<- | []]].
      - pose proof (in_time_order_snoc _ _ Hord) as Hall.
        rewrite Forall_forall in Hall. apply (Hall v Hv).
      - unfold item0. cbn [fst snd]. lra. }
    assert (Qle_bool (item0 v) now = true) as -> by (qbool; exact Hle).
    rewrite andb_true_r. reflexivity.
  - rewrite Hbuf. apply in_time_order_nondecreasing.
    apply in_time_order_filter. exact Hord.
Qed.

Lemma setValue_prunes_to_window_witness :
  0 <= averageTime tied_stamps /\
  nondecreasing (map item0 (appended 5 4 0 tied_stamps)) = true /\
  values (widget (setValue (A := binary64) 5 4 0 tied_stamps))
  = filter (in_closed_window (fsub (Arith := binary64) 5 2) 5)
           [(0, 1, 0); (3, 2, 0); (3, 3, 0); (5, 4, 0)].
Proof.
  split; [simpl; qcompare|]. split; [reflexivity|].
  apply (proj1 (@setValue_prunes_to_window binary64 tied_stamps 5 4 0
                  ltac:(simpl; qcompare) eq_refl)).
Defined.

Example tied_stamps_pruned :
  values (widget (setValue (A := binary64) 5 4 0 tied_stamps))
  = [(3, 2, 0); (3, 3, 0); (5, 4, 0)].
Proof. vm_compute. reflexivity. Qed.

(** X5: with a zero window and a clock that has advanced past every
    buffered sample, [setValue] leaves the new sample alone in the
    buffer, so no averaging takes place: [averageValue()] is the value
    just set, and the ['max'] and ['avg'] errors are the error just
    set. *)
Theorem zero_window_shows_latest {A : Arith} {K : Toolkit}
    {L : ArithLaws A} {LK : ToolkitLaws K}
    (w : ValueLabel) (now value error : Q) :
  averageTime w == 0 ->
  Forall (fun v => item0 v < now) (values w) ->
  let w' := widget (setValue now value error w) in
  values w' = [(now, value, error)] /\
  (exists q, outcome (averageValue w') = Ok q /\ q == value) /\
  outcome (averageError (with_errorType "max" w')) = Ok (Finite error) /\
  (exists a, outcome (averageError (with_errorType "avg" w')) = Ok (Finite a) /\
             a == error).
Proof.
  intros HT Hold w'.
  pose proof (fsub_zero now (averageTime w) HT) as Hcut.
  assert (Hbuf : values w' = [(now, value, error)]).
  { subst w'. rewrite setValue_unfold. unfold widget.
    cbn [fst snd values with_values].
    assert (Qle_bool 0 (averageTime w) = true) as -> by (qbool; lra).
    apply (evict_stop (fsub now (averageTime w)) (values w) (now, value, error) []).
    - eapply Forall_impl; [|exact Hold].
      intros v Hv. unfold below. cbn beta in Hv. lra.
    - unfold below, item0. cbn [fst snd]. lra. }
  split; [exact Hbuf|]. split; [|split].
  - rewrite averageValue_unfold. unfold outcome. cbn [fst]. rewrite Hbuf.
    exists (fdiv value 1). split; [reflexivity|].
    apply fdiv_one.
  - rewrite averageError_unfold. unfold outcome.
    cbn [fst errorType_ with_errorType values]. rewrite Hbuf. reflexivity.
  - rewrite averageError_unfold. unfold outcome.
    cbn [fst errorType_ with_errorType values]. rewrite Hbuf.
    exists (fdiv (np_sum [error]) 1). split; [reflexivity|].
    rewrite fdiv_one. apply np_sum_one.
Qed.

Lemma zero_window_shows_latest_witness :
  averageTime one_sample == 0 /\
  Forall (fun v => item0 v < 4) (values one_sample) /\
  values (widget (setValue (A := exact) 4 9 (2 # 10) one_sample))
  = [(4, 9, 2 # 10)].
Proof.
  split; [reflexivity|].
  split; [constructor; [simpl; qcompare | constructor]|].
  apply (proj1 (@zero_window_shows_latest exact demo exact_laws demo_laws
                  one_sample 4 9 (2 # 10)
                  ltac:(reflexivity)
                  ltac:(constructor; [simpl; qcompare | constructor]))).
Defined.

(** ** The rendered text, branch by branch *)

Lemma nonempty_length (w : ValueLabel) :
  values w <> [] -> (List.length (values w) =? 0)%nat = false.
Proof. destruct (values w); [congruence | reflexivity]. Qed.

Lemma nonempty_last (w : ValueLabel) :
  values w <> [] -> exists last, last_item (values w) = Ok last.
Proof.
  intro Hne. destruct (exists_last Hne) as [front [x Hx]].
  exists x. rewrite Hx. apply last_item_snoc.
Qed.

Lemma nonempty_average {A : Arith} (w : ValueLabel) :
  values w <> [] -> exists avg, outcome (averageValue w) = Ok avg.
Proof.
  intro Hne. rewrite averageValue_unfold. unfold outcome. cbn [fst].
  rewrite reduce_rounded_total
    by (destruct (values w); [congruence | discriminate]).
  unfold truediv. rewrite (float_len_nonzero _ Hne). eexists. reflexivity.
Qed.

Lemma nonempty_error {A : Arith} {K : Toolkit} (w : ValueLabel) :
  values w <> [] -> exists avg_err, outcome (averageError w) = Ok avg_err.
Proof.
  intro Hne. rewrite averageError_unfold. unfold outcome. cbn [fst].
  destruct (String.eqb (errorType_ w) "max").
  { destruct (values w) as [|v rest]; [congruence|]. eexists. reflexivity. }
  destruct (String.eqb (errorType_ w) "stdDev"); [eexists; reflexivity|].
  destruct (String.eqb (errorType_ w) "stdErr"); eexists; reflexivity.
Qed.

(** What [generateText] returns and which statistics it enters, on a
    non-empty buffer. *)
Lemma generateText_nonempty {A : Arith} {K : Toolkit} (w : ValueLabel) (last : sample)
    (avg : Q) (avg_err : npfloat) :
  last_item (values w) = Ok last ->
  outcome (averageValue w) = Ok avg ->
  outcome (averageError w) = Ok avg_err ->
  generateText w =
  (if error_ w then
     if siPrefix w then
       match siFormat avg (si_error_kwargs (suffix w) avg_err) with
       | Ok s => Ok (replace_space "&nbsp;" s)
       | Raise e => Raise e
       end
     else
       match Np.to_int (prec_of avg avg_err) with
       | Ok p => render (formatStr w)
                   (error_fields (item1 last) avg (suffix w) (item2 last) avg_err p)
       | Raise e => Raise e
       end
   else
     if siPrefix w then siFormat avg [("suffix", AStr (suffix w))]%string
     else render (formatStr w) (plain_fields (item1 last) avg (suffix w)),
   w,
   if error_ w then [EvAverageValue; EvAverageError] else [EvAverageValue]).
Proof.
  intros Hlast Havg Herr.
  assert (Hlen : (List.length (values w) =? 0)%nat = false).
  { destruct (values w); [discriminate Hlast | reflexivity]. }
  rewrite averageValue_unfold in Havg. rewrite averageError_unfold in Herr.
  unfold outcome in Havg, Herr. cbn [fst] in Havg, Herr.
  unfold generateText, bind, self, lift, ret. cbn [fst snd].
  rewrite Hlen, averageValue_unfold, Havg, Hlast.
  destruct (error_ w).
  - rewrite averageError_unfold, Herr.
    destruct (siPrefix w).
    + unfold si_error_kwargs.
      destruct (siFormat avg _) as [s|e]; reflexivity.
    + unfold render, error_fields.
      destruct (Np.to_int (prec_of avg avg_err)) as [p|e]; [|reflexivity].
      destruct (str_format (formatStr w) _) as [s|e]; reflexivity.
  - destruct (siPrefix w).
    + destruct (siFormat avg _) as [s|e]; reflexivity.
    + unfold render, plain_fields.
      destruct (str_format (formatStr w) _) as [s|e]; reflexivity.
Qed.

(** ** Spaces in the rendered text *)

Lemma has_space_app (a b : string) :
  has_space (a ++ b) = has_space a || has_space b.
Proof.
  induction a as [|c a IH]; [reflexivity|].
  cbn [String.append has_space]. rewrite IH, orb_assoc. reflexivity.
Qed.

Lemma replace_space_has_no_space (new s : string) :
  has_space new = false -> has_space (replace_space new s) = false.
Proof.
  intro Hnew. induction s as [|c s IH]; [reflexivity|].
  cbn [replace_space]. destruct (Ascii.eqb c space) eqn:E.
  - rewrite has_space_app, Hnew, IH. reflexivity.
  - cbn [has_space]. rewrite E, IH. reflexivity.
Qed.

Lemma first_char_lstrip (s : string) : first_char (lstrip s) <> Some space.
Proof.
  induction s as [|c s IH]; [discriminate|].
  cbn [lstrip]. destruct (Ascii.eqb c space) eqn:E; [exact IH|].
  cbn [first_char]. intros [= ->]. rewrite Ascii.eqb_refl in E. discriminate.
Qed.

Lemma last_char_lstrip (s : string) :
  last_char s <> Some space -> last_char (lstrip s) <> Some space.
Proof.
  induction s as [|c s IH]; [intros; discriminate|].
  cbn [lstrip]. destruct (Ascii.eqb c space) eqn:E; [|tauto].
  intro Hlast. apply IH. intro Hs. apply Hlast.
  cbn [last_char]. rewrite Hs. reflexivity.
Qed.

Lemma first_char_rev_onto (s acc : string) :
  first_char (string_rev_onto s acc) =
  match last_char s with
  | Some c => Some c
  | None => first_char acc
  end.
Proof.
  revert acc. induction s as [|c s IH]; intro acc; [reflexivity|].
  cbn [string_rev_onto last_char]. rewrite IH.
  destruct (last_char s); reflexivity.
Qed.

Lemma last_char_rev_onto (s acc : string) :
  last_char (string_rev_onto s acc) =
  match last_char acc with
  | Some c => Some c
  | None => first_char s
  end.
Proof.
  revert acc. induction s as [|c s IH]; intro acc.
  - cbn [string_rev_onto first_char]. destruct (last_char acc); reflexivity.
  - cbn [string_rev_onto first_char]. rewrite IH.
    cbn [last_char]. destruct (last_char acc); reflexivity.
Qed.

Lemma first_char_rev (s : string) : first_char (string_rev s) = last_char s.
Proof.
  unfold string_rev. rewrite first_char_rev_onto.
  destruct (last_char s); reflexivity.
Qed.

Lemma last_char_rev (s : string) : last_char (string_rev s) = first_char s.
Proof. unfold string_rev. rewrite last_char_rev_onto. reflexivity. Qed.

Lemma strip_edges (s : string) :
  first_char (strip s) <> Some space /\ last_char (strip s) <> Some space.
Proof.
  unfold strip. rewrite first_char_rev, last_char_rev. split.
  - apply last_char_lstrip. rewrite last_char_rev. apply first_char_lstrip.
  - apply first_char_lstrip.
Qed.

Lemma render_edges {A : Arith} {K : Toolkit} (fmt : string) (fields : kwargs) (s : string) :
  render fmt fields = Ok s ->
  first_char s <> Some space /\ last_char s <> Some space.
Proof.
  unfold render. destruct (str_format fmt fields) as [t|e]; [|discriminate].
  intros [= <-]. apply strip_edges.
Qed.

(** X8: in SI-prefix mode with the error shown, the text returned by
    [generateText()] contains no space character: every space of the
    formatter's output has been replaced by [&nbsp;]. *)
Theorem si_error_text_has_no_space {A : Arith} {K : Toolkit} (w : ValueLabel) (s : string) :
  siPrefix w = true ->
  error_ w = true ->
  outcome (generateText w) = Ok s ->
  has_space s = false.
Proof.
  intros Hsi Hshow Hout.
  destruct (values w) as [|v rest] eqn:Hbuf.
  - rewrite (generateText_empty w Hbuf) in Hout.
    unfold outcome in Hout. cbn [fst] in Hout. injection Hout as <-. reflexivity.
  - assert (Hne : values w <> []) by (rewrite Hbuf; discriminate).
    destruct (nonempty_last w Hne) as [last Hlast].
    destruct (nonempty_average w Hne) as [avg Havg].
    destruct (nonempty_error w Hne) as [avg_err Herr].
    rewrite (generateText_nonempty w last avg avg_err Hlast Havg Herr) in Hout.
    unfold outcome in Hout. cbn [fst] in Hout. rewrite Hsi, Hshow in Hout.
    destruct (siFormat avg _) as [t|e]; [|discriminate].
    injection Hout as <-. apply replace_space_has_no_space. reflexivity.
Qed.

Lemma si_error_text_has_no_space_witness :
  exists s, outcome (generateText (A := exact) (K := demo) si_widget) = Ok s /\ has_space s = false.
Proof.
  eexists. split; [reflexivity|].
  apply (@si_error_text_has_no_space exact demo si_widget _ eq_refl eq_refl eq_refl).
Defined.

(** X9: without SI prefix, the text returned by [generateText()] neither
    starts nor ends with a space, whatever the template renders (so an
    empty suffix leaves no dangling space). *)
Theorem template_text_has_no_outer_space {A : Arith} {K : Toolkit} (w : ValueLabel) (s : string) :
  siPrefix w = false ->
  outcome (generateText w) = Ok s ->
  first_char s <> Some space /\ last_char s <> Some space.
Proof.
  intros Hsi Hout.
  destruct (values w) as [|v rest] eqn:Hbuf.
  - rewrite (generateText_empty w Hbuf) in Hout.
    unfold outcome in Hout. cbn [fst] in Hout. injection Hout as <-.
    split; discriminate.
  - assert (Hne : values w <> []) by (rewrite Hbuf; discriminate).
    destruct (nonempty_last w Hne) as [last Hlast].
    destruct (nonempty_average w Hne) as [avg Havg].
    destruct (nonempty_error w Hne) as [avg_err Herr].
    rewrite (generateText_nonempty w last avg avg_err Hlast Havg Herr) in Hout.
    unfold outcome in Hout. cbn [fst] in Hout. rewrite Hsi in Hout.
    destruct (error_ w).
    + destruct (Np.to_int (prec_of avg avg_err)) as [p|e]; [|discriminate].
      apply render_edges in Hout. exact Hout.
    + apply render_edges in Hout. exact Hout.
Qed.

Lemma template_text_has_no_outer_space_witness :
  exists s, outcome (generateText (A := exact) (K := demo) (with_error false three_samples)) = Ok s /\
            first_char s <> Some space /\ last_char s <> Some space.
Proof.
  eexists. split; [reflexivity|].
  apply (@template_text_has_no_outer_space exact demo (with_error false three_samples) _
           eq_refl eq_refl).
Defined.

(** ** What the text depends on *)

Lemma last_item_map {X Y : Type} (f : X -> Y) (xs : list X) :
  last_item (map f xs) =
  match last_item xs with
  | Ok x => Ok (f x)
  | Raise e => Raise e
  end.
Proof.
  unfold last_item. rewrite <- map_rev. destruct (rev xs); reflexivity.
Qed.

Lemma averageValue_by_values {A : Arith} (w : ValueLabel) :
  outcome (averageValue w) =
  match reduce fadd (map item1 (values w)) with
  | Ok s => truediv s (float_len (map item1 (values w)))
  | Raise e => Raise e
  end.
Proof.
  rewrite averageValue_unfold, float_len_map. reflexivity.
Qed.

Lemma generateText_same_inputs {A : Arith} {K : Toolkit} (w w' : ValueLabel) :
  map item1 (values w') = map item1 (values w) ->
  (error_ w = true ->
   map item2 (values w') = map item2 (values w) /\ errorType_ w' = errorType_ w) ->
  error_ w' = error_ w ->
  siPrefix w' = siPrefix w ->
  suffix w' = suffix w ->
  (siPrefix w = false -> formatStr w' = formatStr w) ->
  outcome (generateText w') = outcome (generateText w).
Proof.
  intros Hvals Herrs Hshow Hsi Hsfx Hfmt.
  assert (Hcase : values w = [] \/ values w <> []).
  { destruct (values w); [left; reflexivity | right; discriminate]. }
  destruct Hcase as [Hbuf | Hne].
  - assert (Hbuf' : values w' = []).
    { rewrite Hbuf in Hvals. apply map_eq_nil in Hvals. exact Hvals. }
    rewrite (generateText_empty w Hbuf), (generateText_empty w' Hbuf').
    reflexivity.
  - assert (Hne' : values w' <> []).
    { intro E. rewrite E in Hvals. symmetry in Hvals.
      apply map_eq_nil in Hvals. contradiction. }
    destruct (nonempty_last w Hne) as [last Hlast].
    destruct (nonempty_average w Hne) as [avg Havg].
    destruct (nonempty_error w Hne) as [avg_err Herr].
    destruct (nonempty_last w' Hne') as [last' Hlast'].
    destruct (nonempty_average w' Hne') as [avg' Havg'].
    destruct (nonempty_error w' Hne') as [avg_err' Herr'].
    assert (Eavg : avg' = avg).
    { rewrite averageValue_by_values in Havg, Havg'.
      rewrite Hvals in Havg'. congruence. }
    assert (Eval : item1 last' = item1 last).
    { pose proof (last_item_map item1 (values w)) as L.
      pose proof (last_item_map item1 (values w')) as L'.
      rewrite Hvals, L, Hlast in L'. rewrite Hlast' in L'. congruence. }
    rewrite (generateText_nonempty w last avg avg_err Hlast Havg Herr).
    rewrite (generateText_nonempty w' last' avg' avg_err' Hlast' Havg' Herr').
    unfold outcome. cbn [fst]. rewrite Hshow, Hsi, Hsfx, Eavg, Eval.
    destruct (error_ w) eqn:Eshow.
    + destruct (Herrs eq_refl) as [Hitem2 Hty].
      assert (Eerr : avg_err' = avg_err).
      { rewrite averageError_unfold in Herr, Herr'.
        unfold outcome in Herr, Herr'. cbn [fst] in Herr, Herr'.
        rewrite Hvals, Hitem2, Hty in Herr'. congruence. }
      assert (Eerr2 : item2 last' = item2 last).
      { pose proof (last_item_map item2 (values w)) as L.
        pose proof (last_item_map item2 (values w')) as L'.
        rewrite Hitem2, L, Hlast in L'. rewrite Hlast' in L'. congruence. }
      rewrite Eerr, Eerr2.
      destruct (siPrefix w); [reflexivity|].
      rewrite (Hfmt eq_refl). reflexivity.
    + destruct (siPrefix w); [reflexivity|].
      rewrite (Hfmt eq_refl). reflexivity.
Qed.

(** X10: in SI-prefix mode the format template is not used: whatever
    [setFormatStr] stores, [generateText()] returns the same. *)
Theorem si_mode_ignores_template {A : Arith} {K : Toolkit} (w : ValueLabel) (fmt : string) :
  siPrefix w = true ->
  outcome (generateText (widget (setFormatStr fmt w))) = outcome (generateText w).
Proof.
  intro Hsi. apply generateText_same_inputs; try reflexivity.
  - intros _. split; reflexivity.
  - intro Hno. rewrite Hsi in Hno. discriminate Hno.
Qed.

Lemma si_mode_ignores_template_witness :
  siPrefix si_widget = true /\
  outcome (generateText (A := exact) (K := demo) (widget (setFormatStr "{value}" si_widget)))
  = outcome (generateText (A := exact) (K := demo) si_widget).
Proof.
  split; [reflexivity|].
  apply (@si_mode_ignores_template exact demo si_widget "{value}" eq_refl).
Defined.

(** X11: with the error display off, [generateText()] does not enter
    [averageError], and its text depends on the buffer only through the
    values: the error type, the per-sample errors, the time stamps and
    the window do not matter. *)
Theorem plain_text_ignores_errors {A : Arith} {K : Toolkit} (w : ValueLabel)
    (vs : list sample) (ty : string) (t : Q) :
  error_ w = false ->
  map item1 vs = map item1 (values w) ->
  ~ In EvAverageError (trace (generateText w)) /\
  outcome (generateText (with_averageTime t (with_errorType ty (with_values vs w))))
  = outcome (generateText w).
Proof.
  intros Hshow Hvals. split.
  - destruct (values w) as [|v rest] eqn:Hbuf.
    + rewrite (generateText_empty w Hbuf). unfold trace. cbn [snd]. tauto.
    + assert (Hne : values w <> []) by (rewrite Hbuf; discriminate).
      destruct (nonempty_last w Hne) as [last Hlast].
      destruct (nonempty_average w Hne) as [avg Havg].
      destruct (nonempty_error w Hne) as [avg_err Herr].
      rewrite (generateText_nonempty w last avg avg_err Hlast Havg Herr).
      unfold trace. cbn [snd]. rewrite Hshow.
      intros [E | []]. discriminate E.
  - apply generateText_same_inputs; try reflexivity; try exact Hvals.
    intro Hyes. rewrite Hshow in Hyes. discriminate Hyes.
Qed.

Lemma plain_text_ignores_errors_witness :
  outcome (generateText (A := exact) (K := demo) (with_averageTime 7 (with_errorType "max"
             (with_values [(5, 1, 9); (6, 2, 9); (7, 3, 9)]
                          (with_error false three_samples)))))
  = outcome (generateText (A := exact) (K := demo) (with_error false three_samples)).
Proof.
  apply (proj2 (@plain_text_ignores_errors exact demo (with_error false three_samples)
                  [(5, 1, 9); (6, 2, 9); (7, 3, 9)] "max" 7 eq_refl eq_refl)).
Defined.

(** X12: [generateText()] never reads a time stamp or the window: two
    buffers with the same values and errors in the same order render the
    same text under the same configuration. *)
Theorem text_ignores_time_stamps {A : Arith} {K : Toolkit} (w : ValueLabel)
    (vs : list sample) (t : Q) :
  readings vs = readings (values w) ->
  outcome (generateText (with_averageTime t (with_values vs w)))
  = outcome (generateText w).
Proof.
  intro Hread.
  assert (H1 : map item1 vs = map item1 (values w)).
  { apply (f_equal (map fst)) in Hread. unfold readings in Hread.
    rewrite !map_map in Hread. exact Hread. }
  assert (H2 : map item2 vs = map item2 (values w)).
  { apply (f_equal (map snd)) in Hread. unfold readings in Hread.
    rewrite !map_map in Hread. exact Hread. }
  apply generateText_same_inputs; try reflexivity; try exact H1.
  intros _. split; [exact H2 | reflexivity].
Qed.

Lemma text_ignores_time_stamps_witness :
  outcome (generateText (A := exact) (K := demo) (with_averageTime 1
             (with_values [(40, 1, 1 # 10); (50, 2, 5 # 10); (60, 3, 2 # 10)]
                          three_samples)))
  = outcome (generateText (A := exact) (K := demo) three_samples).
Proof.
  apply (@text_ignores_time_stamps exact demo three_samples
           [(40, 1, 1 # 10); (50, 2, 5 # 10); (60, 3, 2 # 10)] 1 eq_refl).
Defined.

(** ** The precision of the error text *)

(** X13: with the error shown and no SI prefix, for a positive average
    and a positive error: when the error does not exceed the average the
    precision bound to the template is at least 1, and when the average
    does not exceed the error it is at most 1. *)
Theorem precision_follows_relative_error {A : Arith} {K : Toolkit}
    {LK : ToolkitLaws K} (w : ValueLabel) (last : sample) (avg e : Q) :
  last_item (values w) = Ok last ->
  outcome (averageValue w) = Ok avg ->
  outcome (averageError w) = Ok (Finite e) ->
  error_ w = true ->
  siPrefix w = false ->
  0 < avg -> 0 < e ->
  exists p : Z,
    outcome (generateText w) =
      render (formatStr w)
             (error_fields (item1 last) avg (suffix w) (item2 last) (Finite e) p) /\
    (e <= avg -> (1 <= p)%Z) /\
    (avg <= e -> (p <= 1)%Z).
Proof.
  intros Hlast Havg Herr Hshow Hsi Ha He.
  exists (np_floor_log10 avg - np_floor_log10 e + 1)%Z.
  split; [|split].
  - rewrite (generateText_error_template w last avg (Finite e)
               Hlast Havg Herr Hshow Hsi).
    unfold prec_of.
    rewrite (nonzero_test avg) by lra.
    assert (Np.eq0 (Finite e) = false) as ->
      by (unfold Np.eq0; apply nonzero_test; lra).
    cbn [orb]. rewrite !floor_log10_positive by assumption.
    rewrite to_int_exponents. reflexivity.
  - intro Hle. pose proof (np_floor_log10_mono e avg He Hle). lia.
  - intro Hle. pose proof (np_floor_log10_mono avg e Ha Hle). lia.
Qed.

Lemma precision_follows_relative_error_witness :
  exists (a e : Q) (p : Z),
    outcome (averageValue (A := exact) three_samples) = Ok a /\
    outcome (averageError (A := exact) (K := demo) three_samples)
      = Ok (Finite e) /\
    outcome (generateText (A := exact) (K := demo) three_samples) =
      render (K := demo) (formatStr three_samples)
             (error_fields 3 a "V" (2 # 10) (Finite e) p) /\
    (1 <= p)%Z.
Proof.
  eexists. eexists.
  destruct (@precision_follows_relative_error exact demo demo_laws
              three_samples (2, 3, 2 # 10) _ _
              eq_refl eq_refl eq_refl eq_refl eq_refl
              ltac:(vm_compute; reflexivity) ltac:(vm_compute; reflexivity))
    as [p [Hout [Hge _]]].
  exists p. split; [reflexivity|]. split; [reflexivity|].
  split; [exact Hout|].
  apply Hge. vm_compute. discriminate.
Defined.

(** X14: with the error shown and no SI prefix, a negative average or a
    negative average error (the other one not zero) makes the logarithm
    nan, and [generateText()] raises [ValueError] at [int(prec)] without
    rendering the template. *)
Theorem negative_statistic_raises {A : Arith} {K : Toolkit} (w : ValueLabel) (last : sample)
    (avg : Q) (avg_err : npfloat) :
  last_item (values w) = Ok last ->
  outcome (averageValue w) = Ok avg ->
  outcome (averageError w) = Ok avg_err ->
  error_ w = true ->
  siPrefix w = false ->
  ~ avg == 0 ->
  Np.eq0 avg_err = false ->
  avg < 0 \/ (exists e, avg_err = Finite e /\ e < 0) ->
  outcome (generateText w) = Raise ValueError.
Proof.
  intros Hlast Havg Herr Hshow Hsi Hnz Hez Hneg.
  rewrite (generateText_error_template w last avg avg_err Hlast Havg Herr Hshow Hsi).
  unfold prec_of. rewrite Hez, orb_false_r, (nonzero_test avg Hnz).
  assert (Hnan : Np.add (Np.sub (Np.floor_log10 (Finite avg))
                                (Np.floor_log10 avg_err)) (Finite 1) = NaN).
  { destruct Hneg as [Ha | [e [-> He]]].
    - unfold Np.floor_log10 at 1. rewrite (nonzero_test avg Hnz).
      assert (Qltb avg 0 = true) as -> by (qbool; exact Ha).
      reflexivity.
    - unfold Np.eq0 in Hez.
      unfold Np.floor_log10 at 2. rewrite Hez.
      assert (Qltb e 0 = true) as -> by (qbool; exact He).
      unfold Np.sub. cbn [Np.opp].
      destruct (Np.floor_log10 (Finite avg)); reflexivity. }
  rewrite Hnan. reflexivity.
Qed.

Lemma negative_statistic_raises_witness :
  outcome (generateText (A := exact) (K := demo) negative_readings)
  = Raise ValueError.
Proof.
  apply (@negative_statistic_raises exact demo negative_readings (1, -7, 3 # 10)
           ((-5 + -7) / float_len (values negative_readings))
           (Finite (np_sum (Toolkit := demo) [1 # 10; 3 # 10]
                    / float_len [1 # 10; 3 # 10]))
           eq_refl eq_refl eq_refl eq_refl eq_refl).
  - intro E. vm_compute in E. discriminate E.
  - reflexivity.
  - left. vm_compute. reflexivity.
Defined.

(** X15: on an empty buffer [averageError()] raises [ValueError] for the
    ['max'] type and returns nan, without raising, for every other
    type. *)
Theorem averageError_on_empty_buffer {A : Arith} {K : Toolkit} (w : ValueLabel) :
  values w = [] ->
  (errorType_ w = "max"%string -> outcome (averageError w) = Raise ValueError) /\
  (errorType_ w <> "max"%string -> outcome (averageError w) = Ok NaN).
Proof.
  intro Hbuf. rewrite averageError_unfold. unfold outcome. cbn [fst].
  rewrite Hbuf. cbn [map]. split.
  - intros ->. reflexivity.
  - intro Hty. apply String.eqb_neq in Hty. rewrite Hty.
    destruct (String.eqb (errorType_ w) "stdDev"); [reflexivity|].
    destruct (String.eqb (errorType_ w) "stdErr"); reflexivity.
Qed.

Lemma averageError_on_empty_buffer_witness :
  outcome (averageError (A := binary64) (K := rounded)
             (new "V" false 0 None true "max")) = Raise ValueError /\
  outcome (averageError (A := binary64) (K := rounded)
             (new "V" false 0 None true "stdErr")) = Ok NaN.
Proof.
  split.
  - apply (proj1 (@averageError_on_empty_buffer binary64 rounded
                    (new "V" false 0 None true "max") eq_refl) eq_refl).
  - apply (proj2 (@averageError_on_empty_buffer binary64 rounded
                    (new "V" false 0 None true "stdErr") eq_refl)).
    discriminate.
Defined.

(** ** Construction and the setters *)

(** X16: each setter changes its own attribute and nothing else, and
    never raises.  [setFormatStr] and [setError] request one refresh;
    [setErrorType] requests none, although the next [averageError()]
    already computes the newly selected statistic.  After
    [setError(False)] a repaint no longer enters [averageError]. *)
Theorem setters_change_one_attribute {A : Arith} {K : Toolkit} (w : ValueLabel)
    (fmt ty : string) (b : bool) :
  setFormatStr fmt w = (Ok tt, with_formatStr fmt w, [EvUpdate]) /\
  setError b w = (Ok tt, with_error b w, [EvUpdate]) /\
  setErrorType ty w = (Ok tt, with_errorType ty w, []) /\
  values (widget (setFormatStr fmt w)) = values w /\
  values (widget (setError b w)) = values w /\
  values (widget (setErrorType ty w)) = values w /\
  error_ (widget (setError b w)) = b /\
  outcome (averageError (widget (setErrorType "max" w)))
    = Np.max (map item2 (values w)) /\
  ~ In EvAverageError (trace (generateText (widget (setError false w)))).
Proof.
  do 8 (split; [reflexivity|]).
  assert (Hcase : values w = [] \/ values w <> []).
  { destruct (values w); [left; reflexivity | right; discriminate]. }
  change (widget (setError false w)) with (with_error false w).
  destruct Hcase as [Hbuf | Hne].
  - rewrite (generateText_empty (with_error false w) Hbuf).
    unfold trace. cbn [snd]. tauto.
  - destruct (nonempty_last (with_error false w) Hne) as [last Hlast].
    destruct (nonempty_average (with_error false w) Hne) as [avg Havg].
    destruct (nonempty_error (with_error false w) Hne) as [avg_err Herr].
    rewrite (generateText_nonempty _ last avg avg_err Hlast Havg Herr).
    unfold trace. cbn [snd error_ with_error].
    intros [E | []]. discriminate E.
Qed.

(** X17: a widget as constructed holds no sample: whatever the arguments,
    it renders the empty string without entering a statistic, a paint
    shows that empty string, and the first [setValue] leaves exactly its
    own sample in the buffer. *)
Theorem new_widget_starts_empty {A : Arith} {K : Toolkit} {L : ArithLaws A}
    (sfx : string) (si : bool) (T : Q) (fmt : option string) (err : bool)
    (ety : string) (now value error : Q) (old : string) :
  let w := new sfx si T fmt err ety in
  generateText w = (Ok EmptyString, w, []) /\
  paintEvent (mkPainted w old) = (Ok tt, mkPainted w EmptyString, []) /\
  values (widget (setValue now value error w)) = [(now, value, error)].
Proof.
  intro w.
  assert (Hgen : generateText w = (Ok EmptyString, w, []))
    by (apply generateText_empty; reflexivity).
  split; [exact Hgen|]. split.
  - unfold paintEvent. cbn [label]. rewrite Hgen. reflexivity.
  - rewrite setValue_unfold. unfold widget. cbn [fst snd values with_values].
    subst w. rewrite new_averageTime. unfold appended. rewrite new_values.
    cbn [app].
    destruct (Qle_bool 0 T) eqn:E; [|reflexivity].
    cbn [evict].
    assert (Qltb (item0 (now, value, error)) (fsub now T) = false) as ->;
      [|reflexivity].
    unfold item0. cbn [fst]. qbool. apply fsub_le. exact E.
Qed.

Lemma new_widget_starts_empty_witness :
  values (widget (setValue (A := exact) 7 3 (1 # 2)
                    (new "V" false 5 None true "avg"))) = [(7, 3, 1 # 2)].
Proof.
  apply (proj2 (proj2 (@new_widget_starts_empty exact demo exact_laws
                         "V" false 5 None true "avg" 7 3 (1 # 2) "old"))).
Defined.

(** ** Painting *)


(** X18: [paintEvent] leaves the widget as it is and shows the text
    that [generateText()] returns for the state at paint time; when
    [generateText()] raises, the exception propagates and the text shown
    stays the previous one.  Painting again changes nothing more. *)
Theorem paintEvent_shows_generated_text {A : Arith} {K : Toolkit} (l : Painted) :
  let r := paintEvent l in
  label (snd (fst r)) = label l /\
  (forall s, outcome (generateText (label l)) = Ok s ->
             fst (fst r) = Ok tt /\ shown (snd (fst r)) = s) /\
  (forall e, outcome (generateText (label l)) = Raise e ->
             fst (fst r) = Raise e /\ shown (snd (fst r)) = shown l) /\
  paintEvent (snd (fst r)) = r.
Proof.
  cbv zeta. unfold paintEvent.
  pose proof (generateText_readonly (label l)) as Hro. unfold widget in Hro.
  destruct (generateText (label l)) as [[res w] t] eqn:E.
  cbn [fst snd] in Hro. subst w. unfold outcome. cbn [fst snd].
  destruct res as [s|e]; cbn [fst snd label shown]; rewrite E.
  - repeat split; congruence.
  - repeat split; congruence.
Qed.

Lemma paintEvent_shows_generated_text_witness :
  shown (snd (fst (paintEvent (A := exact) (K := demo) (mkPainted (with_error false three_samples) "old"))))
    = "{avgValue:.{precision}g} ± {avgError:.1g} {suffix} value=# avgValue=# suffix=V"%string /\
  shown (snd (fst (paintEvent (A := exact) (K := demo) (mkPainted negative_readings "old")))) = "old"%string.
Proof.
  split.
  - apply (proj1 (proj2 (@paintEvent_shows_generated_text exact demo
                           (mkPainted (with_error false three_samples) "old")))).
    reflexivity.
  - apply (proj1 (proj2 (proj2 (@paintEvent_shows_generated_text exact demo
                                  (mkPainted negative_readings "old")))) ValueError).
    reflexivity.
Defined.

(** ** The infinite window *)

(** X19: with a negative [averageTime] the average runs over everything
    ever set: after any non-empty sequence of [setValue] calls on a new
    widget, [averageValue()] is the sum of all the values passed,
    accumulated left to right with each addition rounded, divided by
    their number, whatever the time stamps. *)
Theorem infinite_window_averages_all {A : Arith}
    (sfx : string) (si : bool) (T : Q) (fmt : option string) (err : bool)
    (ety : string) (calls : list call) :
  T < 0 ->
  calls <> [] ->
  outcome (averageValue (run (new sfx si T fmt err ety) calls))
  = Ok (fdiv (rounded_total (map item1 calls)) (count (map item1 calls))).
Proof.
  intros HT Hne.
  assert (Hbuf : values (run (new sfx si T fmt err ety) calls) = calls).
  { rewrite run_negative_window by (rewrite new_averageTime; exact HT).
    reflexivity. }
  rewrite averageValue_unfold. unfold outcome. cbn [fst]. rewrite Hbuf.
  rewrite reduce_rounded_total
    by (destruct calls; [congruence | discriminate]).
  unfold truediv. rewrite <- float_len_count, float_len_map.
  destruct (Qeq_bool (float_len calls) 0) eqn:E; [|reflexivity].
  apply Qeq_bool_iff in E. pose proof (float_len_pos calls Hne). lra.
Qed.

Lemma infinite_window_averages_all_witness :
  outcome (averageValue (A := binary64)
             (run (A := binary64) (new "V" false (-1) None false "avg")
                  [(9, 4, 0); (2, 6, 0); (700, 8, 0)]))
  = Ok (round64 (round64 (round64 (4 + 6) + 8) / 3)).
Proof.
  apply (@infinite_window_averages_all binary64 "V" false (-1) None false "avg"
           [(9, 4, 0); (2, 6, 0); (700, 8, 0)]
           ltac:(qcompare) ltac:(discriminate)).
Defined.
